(** * AmazonPinterestBot front-end: session client, dashboard poller, form

    A shallow embedding of [src/lib/api.ts] (the [ApiClient] class with its
    two axios interceptors), of [loadJobs] in [src/pages/dashboard.tsx] and
    of the landing form's [useForm]/[onSubmit]/[toggleCategory].

    Conventions of the embedding:
    - the singleton [apiClient], the browser's [localStorage], the console
      and the wire are one explicit state, [World];
    - an [async] method is a computation in the monad [Js E A]: it takes
      the world, and either returns a value or throws an [E];
    - the answer of the backend to the (single) request of a method is an
      argument of the method, an [AxiosReply];
    - [localStorage] is a finite map from keys to strings, absent when
      there is no [window]; its calls do not throw (no quota errors);
    - [data.detail] of an error body is a string when it is there. *)

From Stdlib Require Import ZArith QArith String List Sorted Permutation Lia.
From stdpp Require Import base option gmap strings list sorting.

Local Open Scope string_scope.
Local Open Scope Z_scope.

(** ** JavaScript values used by the client *)

(** [if (s)] on a string: the empty string is falsy. *)
Definition truthy (s : string) : bool :=
  match s with
  | EmptyString => false
  | String _ _ => true
  end.

(** [x || fallback] where [x] is [undefined] or a string. *)
Definition or_else (x : option string) (fallback : string) : string :=
  match x with
  | Some s => if truthy s then s else fallback
  | None => fallback
  end.

(** [s.includes(needle)]. *)
Fixpoint includes (s needle : string) : bool :=
  String.prefix needle s ||
  match s with
  | EmptyString => false
  | String _ s' => includes s' needle
  end.

(** A JavaScript [number]; the values that occur here are rationals. *)
Definition number := Q.

(** ** Data model of [api.ts] *)

Record Credentials := {
  pinterest_token : string;
  amazon_tag : string;
  session_password : string
}.

Record AutomationConfig := {
  categories : list string;
  max_products_per_category : number;
  post_interval_seconds : number;
  daily_pin_limit : number;
  min_rating : number;
  min_reviews : number;
  price_range_min : number;
  price_range_max : number
}.

Record AutomationRequest := {
  credentials : Credentials;
  config : AutomationConfig
}.

Inductive JobState := queued | running | completed | failed | cancelled.

Record JobProgress := {
  current_category : option string;
  completed_categories : option number;
  total_categories : option number;
  overall_progress : option number
}.

Record JobResults := {
  total_products_found : number;
  total_pins_created : number;
  total_errors : number;
  category_results : list (string * string)
}.

Record JobStatus := {
  job_id : string;
  status : JobState;
  progress : JobProgress;
  created_at : string;
  updated_at : string;
  results : option JobResults;
  error : option string
}.

Record Board := { board_id : string; board_name : string }.

Record SessionResponse := {
  session_id : string;
  encrypted_credentials : string;
  pinterest_boards : list Board;
  session_message : string
}.

Record JobResponse := {
  jr_job_id : string;
  jr_status : string;
  jr_message : string
}.

(** ** The wire *)

Inductive Method := GET | POST | DELETE.

Inductive Body :=
| NoBody
| CredentialsBody (c : Credentials)
| AutomationBody (r : AutomationRequest).

(** An outgoing request as it leaves the request interceptor. *)
Record Request := {
  method : Method;
  url : string;
  authorization : option string;
  body : Body
}.

(** [error.response]: the status and, when the body has one, [data.detail]. *)
Record ErrorResponse := {
  http_status : Z;
  detail : option string
}.

(** The rejection of an axios call; [response] is [undefined] for a
    transport failure (network unreachable, timeout). *)
Record AxiosError := { response : option ErrorResponse }.

Inductive AxiosReply (A : Type) :=
| Resolved (data : A)
| Rejected (e : AxiosError).
Arguments Resolved {A} data.
Arguments Rejected {A} e.

(** [new Error(message)]. *)
Record Error := { message : string }.

(** ** The world: the client singleton and its browser *)

Record World := {
  sessionId : option string;                    (* this.sessionId *)
  localStorage : option (gmap string string);   (* None: no [window] *)
  console : list (string * AxiosError);         (* console.error calls *)
  wire : list Request                           (* requests sent, oldest first *)
}.

Definition with_sessionId (v : option string) (w : World) : World :=
  {| sessionId := v; localStorage := localStorage w;
     console := console w; wire := wire w |}.

Definition with_localStorage (f : gmap string string -> gmap string string)
    (w : World) : World :=
  {| sessionId := sessionId w; localStorage := f <$> localStorage w;
     console := console w; wire := wire w |}.

Definition with_console (entry : string * AxiosError) (w : World) : World :=
  {| sessionId := sessionId w; localStorage := localStorage w;
     console := console w ++ [entry]; wire := wire w |}.

Definition with_wire (r : Request) (w : World) : World :=
  {| sessionId := sessionId w; localStorage := localStorage w;
     console := console w; wire := wire w ++ [r] |}.

(** ** Computations that return or throw *)

Inductive Completion (E A : Type) :=
| Return (a : A)
| Throw (e : E).
Arguments Return {E A} a.
Arguments Throw {E A} e.

Definition Js (E A : Type) : Type := World -> Completion E A * World.

Definition ret {E A} (a : A) : Js E A := fun w => (Return a, w).

Definition throw {E A} (e : E) : Js E A := fun w => (Throw e, w).

Definition bind {E A B} (m : Js E A) (k : A -> Js E B) : Js E B :=
  fun w =>
    match m w with
    | (Return a, w') => k a w'
    | (Throw e, w') => (Throw e, w')
    end.

(** [try { m } catch (error) { handler error }] *)
Definition try_catch {E E' A} (m : Js E A) (handler : E -> Js E' A) : Js E' A :=
  fun w =>
    match m w with
    | (Return a, w') => (Return a, w')
    | (Throw e, w') => handler e w'
    end.

(** [try { m } finally { fin }], for a [fin] that completes normally. *)
Definition try_finally {E A} (m : Js E A) (fin : World -> World) : Js E A :=
  fun w => let (c, w') := m w in (c, fin w').

Definition modify {E} (f : World -> World) : Js E unit :=
  fun w => (Return tt, f w).

Definition read {E A} (f : World -> A) : Js E A :=
  fun w => (Return (f w), w).

#[global] Instance Js_ret {E} : MRet (Js E) := fun A => @ret E A.
#[global] Instance Js_bind {E} : MBind (Js E) := fun A B k m => @bind E A B m k.

(** ** [localStorage] *)

Definition SESSION_ID : string := "session_id".
Definition ENCRYPTED_CREDENTIALS : string := "encrypted_credentials".

(** [if (typeof window !== 'undefined') localStorage.setItem(k, v)] *)
Definition setItem (k v : string) : World -> World :=
  with_localStorage (insert k v).

(** [if (typeof window !== 'undefined') localStorage.removeItem(k)] *)
Definition removeItem (k : string) : World -> World :=
  with_localStorage (delete k).

(** ** [class ApiClient] *)

(** The request interceptor: the bearer header is set when
    [this.sessionId] is truthy. *)
Definition request_interceptor (w : World) (r : Request) : Request :=
  match sessionId w with
  | Some sid =>
      if truthy sid
      then {| method := method r; url := url r;
              authorization := Some ("Bearer " ++ sid); body := body r |}
      else r
  | None => r
  end.

(** [error.response?.status] *)
Definition error_status (e : AxiosError) : option Z :=
  http_status <$> response e.

(** [error.response?.data?.detail] *)
Definition error_detail (e : AxiosError) : option string :=
  response e ≫= detail.

(** The rejection branch of the response interceptor. *)
Definition response_interceptor {A} (e : AxiosError) : Js AxiosError A :=
  fun w =>
    if bool_decide (error_status e = Some 401)
    then (Throw e,
          removeItem ENCRYPTED_CREDENTIALS
            (removeItem SESSION_ID (with_sessionId None w)))
    else (Throw e, w).

(** [this.client.get/post/delete]: one request through both interceptors. *)
Definition client_request {A} (m : Method) (u : string) (b : Body)
    (reply : AxiosReply A) : Js AxiosError A :=
  fun w =>
    let r := request_interceptor w
               {| method := m; url := u; authorization := None; body := b |} in
    let w1 := with_wire r w in
    match reply with
    | Resolved data => (Return data, w1)
    | Rejected e => response_interceptor e w1
    end.

(** The constructor: the session id saved by an earlier page load. *)
Definition new_ApiClient (storage : option (gmap string string)) : World :=
  {| sessionId :=
       match storage ≫= (fun ls => ls !! SESSION_ID) with
       | Some saved => if truthy saved then Some saved else None
       | None => None
       end;
     localStorage := storage; console := []; wire := [] |}.

Definition startSession (creds : Credentials)
    (reply : AxiosReply SessionResponse) : Js Error SessionResponse :=
  try_catch
    (data ← client_request POST "/api/start-session" (CredentialsBody creds) reply;
     modify (with_sessionId (Some (session_id data)));;
     modify (setItem SESSION_ID (session_id data));;
     modify (setItem ENCRYPTED_CREDENTIALS (encrypted_credentials data));;
     ret data)
    (fun error =>
       throw {| message := or_else (error_detail error) "Failed to start session" |}).

Definition clear_session (w : World) : World :=
  removeItem ENCRYPTED_CREDENTIALS (removeItem SESSION_ID (with_sessionId None w)).

Definition endSession (reply : AxiosReply unit) : Js Error unit :=
  try_finally
    (try_catch
       (sid ← read sessionId;
        match sid with
        | Some s => if truthy s
                    then client_request DELETE "/api/session" NoBody reply
                    else ret tt
        | None => ret tt
        end)
       (fun error => modify (with_console ("Error ending session:", error))))
    clear_session.

Definition startAutomation (request : AutomationRequest)
    (reply : AxiosReply JobResponse) : Js Error JobResponse :=
  try_catch
    (client_request POST "/api/start-automation" (AutomationBody request) reply)
    (fun error =>
       throw {| message := or_else (error_detail error) "Failed to start automation" |}).

Definition getJobStatus (jobId : string)
    (reply : AxiosReply JobStatus) : Js Error JobStatus :=
  try_catch
    (client_request GET ("/api/job-status/" ++ jobId) NoBody reply)
    (fun error =>
       throw {| message := or_else (error_detail error) "Failed to get job status" |}).

Definition getUserJobs (reply : AxiosReply (list JobStatus))
    : Js Error (list JobStatus) :=
  try_catch
    (client_request GET "/api/jobs" NoBody reply)
    (fun error =>
       throw {| message := or_else (error_detail error) "Failed to get user jobs" |}).

Definition cancelJob (jobId : string) (reply : AxiosReply unit) : Js Error unit :=
  try_catch
    (client_request DELETE ("/api/job/" ++ jobId) NoBody reply)
    (fun error =>
       throw {| message := or_else (error_detail error) "Failed to cancel job" |}).

Definition getPrivacyPolicy (reply : AxiosReply string) : Js Error string :=
  try_catch
    (client_request GET "/api/privacy-policy" NoBody reply)
    (fun _ => throw {| message := "Failed to load privacy policy" |}).

Definition healthCheck (reply : AxiosReply string) : Js Error string :=
  try_catch
    (client_request GET "/api/health" NoBody reply)
    (fun _ => throw {| message := "Health check failed" |}).

(** [this.sessionId !== null] *)
Definition isAuthenticated (w : World) : bool :=
  match sessionId w with
  | Some _ => true
  | None => false
  end.

Definition getSessionId (w : World) : option string := sessionId w.

Definition getStoredCredentials (w : World) : option string :=
  localStorage w ≫= (fun ls => ls !! ENCRYPTED_CREDENTIALS).

(** [defaultAutomationConfig] *)
Definition defaultAutomationConfig : AutomationConfig :=
  {| categories := ["electronics"; "home"; "fashion"; "health"];
     max_products_per_category := 5 # 1;
     post_interval_seconds := 300 # 1;
     daily_pin_limit := 50 # 1;
     min_rating := 4 # 1;
     min_reviews := 10 # 1;
     price_range_min := 5 # 1;
     price_range_max := 500 # 1 |}.

(** ** One call of the Automation Session API, with the backend's answer *)

Inductive ApiCall :=
| StartSession (creds : Credentials) (reply : AxiosReply SessionResponse)
| EndSession (reply : AxiosReply unit)
| StartAutomation (request : AutomationRequest) (reply : AxiosReply JobResponse)
| GetJobStatus (jobId : string) (reply : AxiosReply JobStatus)
| GetUserJobs (reply : AxiosReply (list JobStatus))
| CancelJob (jobId : string) (reply : AxiosReply unit)
| GetPrivacyPolicy (reply : AxiosReply string)
| HealthCheck (reply : AxiosReply string).

(** Forget the value a computation returns. *)
Definition void {E A} (m : Js E A) : Js E unit :=
  fun w =>
    match m w with
    | (Return _, w') => (Return tt, w')
    | (Throw e, w') => (Throw e, w')
    end.

Definition run_call (c : ApiCall) : Js Error unit :=
  match c with
  | StartSession creds reply => void (startSession creds reply)
  | EndSession reply => endSession reply
  | StartAutomation request reply => void (startAutomation request reply)
  | GetJobStatus jobId reply => void (getJobStatus jobId reply)
  | GetUserJobs reply => void (getUserJobs reply)
  | CancelJob jobId reply => cancelJob jobId reply
  | GetPrivacyPolicy reply => void (getPrivacyPolicy reply)
  | HealthCheck reply => void (healthCheck reply)
  end.

(** A sequence of calls, each awaited before the next; a caller that
    catches every error. *)
Definition run_calls (cs : list ApiCall) (w : World) : World :=
  fold_left (fun w c => snd (run_call c w)) cs w.

(** The backend's rejection of a call, if it rejected it. *)
Definition call_error (c : ApiCall) : option AxiosError :=
  match c with
  | StartSession _ (Rejected e) | EndSession (Rejected e)
  | StartAutomation _ (Rejected e) | GetJobStatus _ (Rejected e)
  | GetUserJobs (Rejected e) | CancelJob _ (Rejected e)
  | GetPrivacyPolicy (Rejected e) | HealthCheck (Rejected e) => Some e
  | _ => None
  end.

(** A call that starts a new session: a start-session the backend accepts. *)
Definition starts_session (c : ApiCall) : bool :=
  match c with
  | StartSession _ (Resolved _) => true
  | _ => false
  end.

(** ** The dashboard page *)

Record Dashboard := {
  jobs : list JobStatus;
  loading : bool;
  refreshing : bool;
  toasts : list string          (* toast.error calls *)
}.

Definition setJobs (js : list JobStatus) (d : Dashboard) : Dashboard :=
  {| jobs := js; loading := loading d; refreshing := refreshing d;
     toasts := toasts d |}.

Definition toast_error (msg : string) (d : Dashboard) : Dashboard :=
  {| jobs := jobs d; loading := loading d; refreshing := refreshing d;
     toasts := toasts d ++ [msg] |}.

Definition loadJobs_finally (d : Dashboard) : Dashboard :=
  {| jobs := jobs d; loading := false; refreshing := false;
     toasts := toasts d |}.

Section Dashboard.

(** [new Date(s).getTime()]: milliseconds since the epoch, [None] for
    the [NaN] of a string that is not a date. *)
Variable getTime : string -> option Z.

(** The comparator handed to [sort]:
    [new Date(b.created_at).getTime() - new Date(a.created_at).getTime()]. *)
Definition compare_created (a b : JobStatus) : option Z :=
  match getTime (created_at b), getTime (created_at a) with
  | Some tb, Some ta => Some (tb - ta)
  | _, _ => None
  end.

(** [Array.prototype.sort]'s reading of the comparator: [NaN] counts
    as [+0]; [a] may stay before [b] when the result is not positive. *)
Definition sort_le (a b : JobStatus) : Prop :=
  default 0 (compare_created a b) <= 0.

#[local] Instance sort_le_dec a b : Decision (sort_le a b).
Proof. unfold sort_le. apply _. Defined.

(** One step of the sort: [x] goes in front of the first job it may
    stay before, hence in front of the jobs that compare equal to it. *)
Fixpoint insert_job (x : JobStatus) (sorted : list JobStatus)
    : list JobStatus :=
  match sorted with
  | [] => [x]
  | y :: rest =>
      if decide (sort_le x y) then x :: y :: rest
      else y :: insert_job x rest
  end.

(** [userJobs.sort(comparator)]. [Array.prototype.sort] is a stable sort:
    jobs that compare equal keep the order of the array. Each job, from
    the last to the first, is inserted among those that follow it. For a
    comparator that is not consistent (a [created_at] that is not a date)
    ECMAScript leaves the order to the engine; insertion then leaves an
    array whose neighbours are all in order as it is. *)
Definition sort_jobs (js : list JobStatus) : list JobStatus :=
  foldr insert_job [] js.

(** [loadJobs], given the backend's answer to [GET /api/jobs]. *)
Definition loadJobs (reply : AxiosReply (list JobStatus))
    (s : World * Dashboard) : World * Dashboard :=
  let (w, d) := s in
  match getUserJobs reply w with
  | (Return userJobs, w') =>
      (w', loadJobs_finally (setJobs (sort_jobs userJobs) d))
  | (Throw error, w') =>
      if negb (includes (message error) "401")
      then (w', loadJobs_finally (toast_error "Failed to load jobs" d))
      else (w', loadJobs_finally d)
  end.

(** The timer: one [loadJobs] per tick, each with its reply. *)
Definition poll (replies : list (AxiosReply (list JobStatus)))
    (s : World * Dashboard) : World * Dashboard :=
  fold_left (fun s reply => loadJobs reply s) replies s.

(** Most recently created first. *)
Definition newest_first (js : list JobStatus) : Prop :=
  forall i j a b ta tb,
    (i < j)%nat -> js !! i = Some a -> js !! j = Some b ->
    getTime (created_at a) = Some ta -> getTime (created_at b) = Some tb ->
    tb <= ta.

Definition dated (j : JobStatus) : Prop := is_Some (getTime (created_at j)).

(** The creation time of a dated job. *)
Definition created (j : JobStatus) : Z := default 0 (getTime (created_at j)).

Definition not_older (a b : JobStatus) : Prop := created b <= created a.

End Dashboard.

(** ** The landing form *)

Record FormValues := {
  f_pinterest_token : string;
  f_amazon_tag : string;
  f_session_password : string;
  f_categories : list string;
  f_max_products_per_category : number;
  f_post_interval_seconds : number;
  f_daily_pin_limit : number;
  f_min_rating : number;
  f_min_reviews : number;
  f_price_range_min : number;
  f_price_range_max : number
}.

(** [useForm({ defaultValues })]: the text inputs start empty. *)
Definition useForm_defaultValues : FormValues :=
  {| f_pinterest_token := EmptyString;
     f_amazon_tag := EmptyString;
     f_session_password := EmptyString;
     f_categories := categories defaultAutomationConfig;
     f_max_products_per_category := max_products_per_category defaultAutomationConfig;
     f_post_interval_seconds := post_interval_seconds defaultAutomationConfig;
     f_daily_pin_limit := daily_pin_limit defaultAutomationConfig;
     f_min_rating := min_rating defaultAutomationConfig;
     f_min_reviews := min_reviews defaultAutomationConfig;
     f_price_range_min := price_range_min defaultAutomationConfig;
     f_price_range_max := price_range_max defaultAutomationConfig |}.

(** The registered number inputs ([daily_pin_limit] has no input). *)
Inductive NumberField :=
| MaxProductsPerCategory | PostIntervalSeconds | MinRating | MinReviews
| PriceRangeMin | PriceRangeMax.

(** What the user can do to the form before submitting it. *)
Inductive FormEdit :=
| TypePinterestToken (s : string)
| TypeAmazonTag (s : string)
| TypeSessionPassword (s : string)
| ToggleCategory (category : string)
| TypeNumber (field : NumberField) (v : number).

(** [toggleCategory]: drop the category if selected, else append it. *)
Definition toggleCategory (category : string) (current : list string)
    : list string :=
  if bool_decide (category ∈ current)
  then filter (fun c => c ≠ category) current
  else current ++ [category].

Definition set_categories (cs : list string) (v : FormValues) : FormValues :=
  {| f_pinterest_token := f_pinterest_token v;
     f_amazon_tag := f_amazon_tag v;
     f_session_password := f_session_password v;
     f_categories := cs;
     f_max_products_per_category := f_max_products_per_category v;
     f_post_interval_seconds := f_post_interval_seconds v;
     f_daily_pin_limit := f_daily_pin_limit v;
     f_min_rating := f_min_rating v;
     f_min_reviews := f_min_reviews v;
     f_price_range_min := f_price_range_min v;
     f_price_range_max := f_price_range_max v |}.

Definition set_number (field : NumberField) (x : number) (v : FormValues)
    : FormValues :=
  {| f_pinterest_token := f_pinterest_token v;
     f_amazon_tag := f_amazon_tag v;
     f_session_password := f_session_password v;
     f_categories := f_categories v;
     f_max_products_per_category :=
       match field with MaxProductsPerCategory => x | _ => f_max_products_per_category v end;
     f_post_interval_seconds :=
       match field with PostIntervalSeconds => x | _ => f_post_interval_seconds v end;
     f_daily_pin_limit := f_daily_pin_limit v;
     f_min_rating :=
       match field with MinRating => x | _ => f_min_rating v end;
     f_min_reviews :=
       match field with MinReviews => x | _ => f_min_reviews v end;
     f_price_range_min :=
       match field with PriceRangeMin => x | _ => f_price_range_min v end;
     f_price_range_max :=
       match field with PriceRangeMax => x | _ => f_price_range_max v end |}.

Definition set_credentials (tok tag pw : string) (v : FormValues) : FormValues :=
  {| f_pinterest_token := tok;
     f_amazon_tag := tag;
     f_session_password := pw;
     f_categories := f_categories v;
     f_max_products_per_category := f_max_products_per_category v;
     f_post_interval_seconds := f_post_interval_seconds v;
     f_daily_pin_limit := f_daily_pin_limit v;
     f_min_rating := f_min_rating v;
     f_min_reviews := f_min_reviews v;
     f_price_range_min := f_price_range_min v;
     f_price_range_max := f_price_range_max v |}.

Definition apply_edit (v : FormValues) (e : FormEdit) : FormValues :=
  match e with
  | TypePinterestToken s =>
      set_credentials s (f_amazon_tag v) (f_session_password v) v
  | TypeAmazonTag s =>
      set_credentials (f_pinterest_token v) s (f_session_password v) v
  | TypeSessionPassword s =>
      set_credentials (f_pinterest_token v) (f_amazon_tag v) s v
  | ToggleCategory c => set_categories (toggleCategory c (f_categories v)) v
  | TypeNumber field x => set_number field x v
  end.

(** The form's values when it is submitted after the edits [es]. *)
Definition form_after (es : list FormEdit) : FormValues :=
  fold_left apply_edit es useForm_defaultValues.

(** An edit of a field of the automation config. *)
Definition edits_config (e : FormEdit) : bool :=
  match e with
  | ToggleCategory _ | TypeNumber _ _ => true
  | _ => false
  end.

(** [onSubmit]: the two objects built from the submitted [data]. *)
Definition submitted_credentials (data : FormValues) : Credentials :=
  {| pinterest_token := f_pinterest_token data;
     amazon_tag := f_amazon_tag data;
     session_password := f_session_password data |}.

Definition submitted_config (data : FormValues) : AutomationConfig :=
  {| categories := f_categories data;
     max_products_per_category := f_max_products_per_category data;
     post_interval_seconds := f_post_interval_seconds data;
     daily_pin_limit := f_daily_pin_limit data;
     min_rating := f_min_rating data;
     min_reviews := f_min_reviews data;
     price_range_min := f_price_range_min data;
     price_range_max := f_price_range_max data |}.

(** [onSubmit]: start the session, then the automation; a failure of
    either becomes an error toast. The success toasts, the spinner and the
    redirect are presentation. The result is the list of error toasts. *)
Definition onSubmit (data : FormValues)
    (session_reply : AxiosReply SessionResponse)
    (automation_reply : AxiosReply JobResponse)
    (w : World) : list string * World :=
  let credentials := submitted_credentials data in
  let config := submitted_config data in
  let attempt : Js Error unit :=
    _ ← startSession credentials session_reply;
    _ ← startAutomation {| credentials := credentials; config := config |}
          automation_reply;
    mret tt in
  match attempt w with
  | (Return _, w') => ([], w')
  | (Throw error, w') =>
      ([or_else (Some (message error)) "Failed to start automation"], w')
  end.

(** * The rest of the three pages and of [api.ts] *)

(** ** Labels and colours of a job status ([api.ts]) *)

(** [categoryOptions]: value and label of each checkbox. *)
Definition categoryOptions : list (string * string) :=
  [("electronics", "Electronics & Gadgets");
   ("home", "Home & Kitchen");
   ("fashion", "Fashion & Style");
   ("health", "Health & Beauty");
   ("books", "Books & Education");
   ("sports", "Sports & Outdoors")].

(** [formatJobStatus]: a [switch] on the string. *)
Definition formatJobStatus (status : string) : string :=
  if String.eqb status "queued" then "Queued"
  else if String.eqb status "running" then "Running"
  else if String.eqb status "completed" then "Completed"
  else if String.eqb status "failed" then "Failed"
  else if String.eqb status "cancelled" then "Cancelled"
  else status.

(** [getStatusColor] *)
Definition getStatusColor (status : string) : string :=
  if String.eqb status "queued" then "text-yellow-600 bg-yellow-100"
  else if String.eqb status "running" then "text-blue-600 bg-blue-100"
  else if String.eqb status "completed" then "text-green-600 bg-green-100"
  else if String.eqb status "failed" then "text-red-600 bg-red-100"
  else if String.eqb status "cancelled" then "text-gray-600 bg-gray-100"
  else "text-gray-600 bg-gray-100".

(** The string literal of each member of the [status] union. *)
Definition status_name (st : JobState) : string :=
  match st with
  | queued => "queued"
  | running => "running"
  | completed => "completed"
  | failed => "failed"
  | cancelled => "cancelled"
  end.

#[global] Instance JobState_eq_dec : EqDecision JobState.
Proof. solve_decision. Defined.

(** ** The dashboard's statistics and handlers ([dashboard.tsx]) *)

Record OverallStats := {
  totalJobs : nat;
  completedJobs : nat;
  runningJobs : nat;
  failedJobs : nat;
  totalPinsCreated : number;
  totalProductsFound : number
}.

(** [x || 0] on a number that may be [undefined]. *)
Definition or_zero (x : option number) : number :=
  match x with
  | Some q => if Qeq_bool q 0 then 0%Q else q
  | None => 0%Q
  end.

(** [calculateOverallStats], of the displayed [jobs]. *)
Definition calculateOverallStats (jobs : list JobStatus) : OverallStats :=
  {| totalJobs := length jobs;
     completedJobs := length (filter (fun job => status job = completed) jobs);
     runningJobs := length (filter (fun job => status job = running) jobs);
     failedJobs := length (filter (fun job => status job = failed) jobs);
     totalPinsCreated :=
       fold_left
         (fun sum job => (sum + or_zero (total_pins_created <$> results job))%Q)
         (filter (fun job => is_Some (results job)) jobs) 0%Q;
     totalProductsFound :=
       fold_left
         (fun sum job => (sum + or_zero (total_products_found <$> results job))%Q)
         (filter (fun job => is_Some (results job)) jobs) 0%Q |}.

(** The dashboard page around its [Dashboard] state: the success toasts,
    the routes pushed on the router, and whether the interval is set. *)
Record DashboardPage := {
  view : Dashboard;
  successes : list string;      (* toast.success calls *)
  pushes : list string;         (* router.push calls *)
  interval : bool               (* setInterval(loadJobs, 5000) is running *)
}.

Definition with_view (d : Dashboard) (p : DashboardPage) : DashboardPage :=
  {| view := d; successes := successes p; pushes := pushes p;
     interval := interval p |}.

Definition toast_success (msg : string) (p : DashboardPage) : DashboardPage :=
  {| view := view p; successes := successes p ++ [msg]; pushes := pushes p;
     interval := interval p |}.

Definition router_push (route : string) (p : DashboardPage) : DashboardPage :=
  {| view := view p; successes := successes p; pushes := pushes p ++ [route];
     interval := interval p |}.

Definition set_interval (p : DashboardPage) : DashboardPage :=
  {| view := view p; successes := successes p; pushes := pushes p;
     interval := true |}.

Definition setRefreshing (b : bool) (d : Dashboard) : Dashboard :=
  {| jobs := jobs d; loading := loading d; refreshing := b;
     toasts := toasts d |}.

(** [handleEndSession] *)
Definition handleEndSession (reply : AxiosReply unit)
    (s : World * DashboardPage) : World * DashboardPage :=
  let (w, p) := s in
  match endSession reply w with
  | (Return _, w') =>
      (w', router_push "/" (toast_success "Session ended successfully" p))
  | (Throw _, w') =>
      (w', with_view (toast_error "Failed to end session" (view p)) p)
  end.

Section DashboardHandlers.

Variable getTime : string -> option Z.

(** [handleRefresh] *)
Definition handleRefresh (reply : AxiosReply (list JobStatus))
    (s : World * Dashboard) : World * Dashboard :=
  let (w, d) := s in
  loadJobs getTime reply (w, setRefreshing true d).

(** [handleCancelJob]: the refresh is awaited only after the
    cancellation went through. *)
Definition handleCancelJob (jobId : string) (cancel_reply : AxiosReply unit)
    (jobs_reply : AxiosReply (list JobStatus))
    (s : World * DashboardPage) : World * DashboardPage :=
  let (w, p) := s in
  match cancelJob jobId cancel_reply w with
  | (Return _, w') =>
      let p' := toast_success "Job cancelled successfully" p in
      let (w'', d) := loadJobs getTime jobs_reply (w', view p') in
      (w'', with_view d p')
  | (Throw error, w') =>
      (w', with_view
             (toast_error (or_else (Some (message error)) "Failed to cancel job")
                (view p)) p)
  end.

(** The effect of mounting the dashboard: the authentication check, the
    first [loadJobs], the interval. *)
Definition dashboard_mount (reply : AxiosReply (list JobStatus))
    (s : World * DashboardPage) : World * DashboardPage :=
  let (w, p) := s in
  if negb (isAuthenticated w)
  then (w, router_push "/" p)
  else
    let (w', d) := loadJobs getTime reply (w, view p) in
    (w', set_interval (with_view d p)).

End DashboardHandlers.

(** The effect of mounting the landing page: the route it pushes. *)
Definition landing_mount (w : World) : option string :=
  if isAuthenticated w then Some "/dashboard" else None.

(** ** The privacy-policy page ([privacy-policy.tsx]) *)

Record PrivacyPage := {
  privacyPolicy : string;
  policy_loading : bool;
  policy_console : list (string * Error)    (* console.error calls *)
}.

(** [loadPrivacyPolicy] *)
Definition loadPrivacyPolicy (reply : AxiosReply string)
    (s : World * PrivacyPage) : World * PrivacyPage :=
  let (w, pg) := s in
  match getPrivacyPolicy reply w with
  | (Return policy, w') =>
      (w', {| privacyPolicy := policy; policy_loading := false;
              policy_console := policy_console pg |})
  | (Throw error, w') =>
      (w', {| privacyPolicy :=
                "Failed to load privacy policy. Please try again later.";
              policy_loading := false;
              policy_console :=
                policy_console pg ++ [("Failed to load privacy policy:", error)] |})
  end.

(** * Vocabulary of the properties *)

(** ** Worlds and requests *)

(** The request a method puts on the wire from world [w]. *)
Definition outgoing (w : World) (m : Method) (u : string) (b : Body) : Request :=
  request_interceptor w
    {| method := m; url := u; authorization := None; body := b |}.

(** The world after the response interceptor saw the rejection [e]. *)
Definition after_rejection (e : AxiosError) (w : World) : World :=
  if bool_decide (error_status e = Some 401) then clear_session w else w.

(** Both keys are absent from the local store (when there is one). *)
Definition keys_cleared (w : World) : Prop :=
  forall ls, localStorage w = Some ls ->
    ls !! SESSION_ID = None /\ ls !! ENCRYPTED_CREDENTIALS = None.

Definition no_bearer (r : Request) : Prop := authorization r = None.

(** [this.sessionId] is truthy: the methods that test it send a request. *)
Definition holds_session (w : World) : bool :=
  match sessionId w with
  | Some s => truthy s
  | None => false
  end.

(** ** Calls *)

(** The request line of each call, read off the methods. *)
Definition call_method (c : ApiCall) : Method :=
  match c with
  | StartSession _ _ | StartAutomation _ _ => POST
  | EndSession _ | CancelJob _ _ => DELETE
  | GetJobStatus _ _ | GetUserJobs _ | GetPrivacyPolicy _ | HealthCheck _ => GET
  end.

Definition call_url (c : ApiCall) : string :=
  match c with
  | StartSession _ _ => "/api/start-session"
  | EndSession _ => "/api/session"
  | StartAutomation _ _ => "/api/start-automation"
  | GetJobStatus jobId _ => "/api/job-status/" ++ jobId
  | GetUserJobs _ => "/api/jobs"
  | CancelJob jobId _ => "/api/job/" ++ jobId
  | GetPrivacyPolicy _ => "/api/privacy-policy"
  | HealthCheck _ => "/api/health"
  end.

Definition call_body (c : ApiCall) : Body :=
  match c with
  | StartSession creds _ => CredentialsBody creds
  | StartAutomation request _ => AutomationBody request
  | _ => NoBody
  end.

Definition call_request (c : ApiCall) (w : World) : Request :=
  outgoing w (call_method c) (call_url c) (call_body c).

(** The fixed message of each method's [catch]. *)
Definition fallback_message (c : ApiCall) : string :=
  match c with
  | StartSession _ _ => "Failed to start session"
  | EndSession _ => "Error ending session:"
  | StartAutomation _ _ => "Failed to start automation"
  | GetJobStatus _ _ => "Failed to get job status"
  | GetUserJobs _ => "Failed to get user jobs"
  | CancelJob _ _ => "Failed to cancel job"
  | GetPrivacyPolicy _ => "Failed to load privacy policy"
  | HealthCheck _ => "Health check failed"
  end.

(** The two utility methods, whose [catch] does not look at the error. *)
Definition is_utility (c : ApiCall) : bool :=
  match c with
  | GetPrivacyPolicy _ | HealthCheck _ => true
  | _ => false
  end.

Definition is_endSession (c : ApiCall) : bool :=
  match c with
  | EndSession _ => true
  | _ => false
  end.

(** The message of the [Error] a method other than [endSession] throws. *)
Definition thrown_message (c : ApiCall) (e : AxiosError) : string :=
  if is_utility c then fallback_message c
  else or_else (error_detail e) (fallback_message c).

(** ** The local store *)

(** What one step may do to the local store: nothing, write both keys,
    or remove both keys. *)
Definition write_both (sid enc : string) (ls : gmap string string)
    : gmap string string :=
  <[ENCRYPTED_CREDENTIALS := enc]> (<[SESSION_ID := sid]> ls).

Definition remove_both (ls : gmap string string) : gmap string string :=
  delete ENCRYPTED_CREDENTIALS (delete SESSION_ID ls).

Inductive store_effect (before : option (gmap string string))
    : option (gmap string string) -> Prop :=
| untouched : store_effect before before
| both_written sid enc : store_effect before (write_both sid enc <$> before)
| both_removed : store_effect before (remove_both <$> before).

(** [session_id] is stored exactly when [encrypted_credentials] is. *)
Definition paired (storage : option (gmap string string)) : Prop :=
  forall ls, storage = Some ls ->
    (is_Some (ls !! SESSION_ID) <-> is_Some (ls !! ENCRYPTED_CREDENTIALS)).

(** ** The specification's error policy *)

(** The error policy in the specification's words: the message is the
    structured message of the response body when there is one, and the
    operation's fixed fallback message otherwise. *)
Definition spec_message (c : ApiCall) (e : AxiosError) : string :=
  match error_detail e with
  | Some structured => structured
  | None => fallback_message c
  end.

Definition policy_unavailable : AxiosError :=
  {| response :=
       Some {| http_status := 503;
               detail := Some "Policy temporarily unavailable"%string |} |}.

(** ** Sample inputs *)

Definition unauthorized : AxiosError :=
  {| response :=
       Some {| http_status := 401;
               detail := Some "Invalid or expired session"%string |} |}.

Definition job_not_found : AxiosError :=
  {| response :=
       Some {| http_status := 404; detail := Some "Job not found"%string |} |}.

(** A transport failure: no response at all. *)
Definition offline : AxiosError := {| response := None |}.

Definition sample_credentials : Credentials :=
  {| pinterest_token := "pina_token"; amazon_tag := "shop-20";
     session_password := "correct horse" |}.

Definition sample_session : SessionResponse :=
  {| session_id := "s-42"; encrypted_credentials := "U2FsdGVkX1";
     pinterest_boards := [{| board_id := "b1"; board_name := "Deals" |}];
     session_message := "Session started" |}.

(** A browser tab that never logged in. *)
Definition fresh_tab : World := new_ApiClient (Some ∅).

(** A browser tab after a successful login. *)
Definition logged_in : World :=
  snd (startSession sample_credentials (Resolved sample_session) fresh_tab).

Definition sample_job (id created : string) : JobStatus :=
  {| job_id := id; status := running;
     progress := {| current_category := None; completed_categories := None;
                    total_categories := None; overall_progress := Some (42 # 1) |};
     created_at := created; updated_at := created;
     results := None; error := None |}.

(** A toy clock for the examples: the length of the string. *)
Definition length_clock (s : string) : option Z :=
  Some (Z.of_nat (String.length s)).

(** A toy clock with a string that is not a date. *)
Definition strict_clock (s : string) : option Z :=
  if String.eqb s "not a date" then None
  else Some (Z.of_nat (String.length s)).

(** Three fetched jobs: an older one, one without a date, a newer one. *)
Definition undated_between : list JobStatus :=
  [sample_job "job-a" "2024-01"; sample_job "job-x" "not a date";
   sample_job "job-b" "2024-01-02"].

(** Three fetched jobs, the first and the last created at the same time. *)
Definition tied_jobs : list JobStatus :=
  [sample_job "job-a" "2024-01"; sample_job "job-b" "2024-01-02";
   sample_job "job-c" "2024-01"].

(** The dashboard before its first fetch. *)
Definition loading_dashboard : Dashboard :=
  {| jobs := []; loading := true; refreshing := false; toasts := [] |}.

(** * Vocabulary of the further properties *)

(** The last successful reply of a sequence of replies. *)
Definition last_fetched (replies : list (AxiosReply (list JobStatus)))
    : option (list JobStatus) :=
  fold_left (fun acc reply =>
               match reply with
               | Resolved js => Some js
               | Rejected _ => acc
               end) replies None.

(** The message [getUserJobs] throws on the rejection [e]. *)
Definition jobs_error_message (e : AxiosError) : string :=
  or_else (error_detail e) "Failed to get user jobs".

(** The replies of a sequence that make [loadJobs] show its toast. *)
Definition shows_toast (reply : AxiosReply (list JobStatus)) : bool :=
  match reply with
  | Resolved _ => false
  | Rejected e => negb (includes (jobs_error_message e) "401")
  end.

(** A call that touches the session: [startSession] or [endSession]. *)
Definition is_session_call (c : ApiCall) : bool :=
  match c with
  | StartSession _ _ | EndSession _ => true
  | _ => false
  end.

(** A call after which the client is logged out whatever the state was:
    [endSession], or any call the backend answers with status 401. *)
Definition logs_out (c : ApiCall) : bool :=
  is_endSession c ||
  match call_error c with
  | Some e => bool_decide (error_status e = Some 401)
  | None => false
  end.

(** The request line and body of a request, apart from its headers. *)
Definition same_line (c : ApiCall) (r : Request) : Prop :=
  method r = call_method c /\ url r = call_url c /\ body r = call_body c.

(** A toggle of one of the six checkboxes. *)
Definition is_option (category : string) : Prop :=
  category ∈ (fst <$> categoryOptions).

(** The categories selected after the checkboxes [clicks] were clicked. *)
Definition selected_after (clicks : list string) : list string :=
  fold_left (fun current c => toggleCategory c current) clicks
    (categories defaultAutomationConfig).

(** ** Further sample inputs *)

(** A session payload whose id is the empty string. *)
Definition blank_session : SessionResponse :=
  {| session_id := EmptyString; encrypted_credentials := "U2FsdGVkX1";
     pinterest_boards := []; session_message := "Session started" |}.

(** A browser tab whose local store holds a key of another script. *)
Definition themed_tab : World :=
  new_ApiClient (Some {["theme"%string := "dark"%string]}).

(** A server error that carries the text of [unauthorized]. *)
Definition expired_500 : AxiosError :=
  {| response :=
       Some {| http_status := 500;
               detail := Some "Invalid or expired session"%string |} |}.

(** * Properties *)

(** ** Equations of the client *)

Lemma client_request_resolved {A} m u b (data : A) w :
  client_request m u b (Resolved data) w
  = (Return data, with_wire (outgoing w m u b) w).
Proof. reflexivity. Qed.

Lemma client_request_rejected {A} m u b e w :
  @client_request A m u b (Rejected e) w
  = (Throw e, after_rejection e (with_wire (outgoing w m u b) w)).
Proof.
  unfold client_request, response_interceptor, after_rejection.
  case_bool_decide; reflexivity.
Qed.

Lemma sessionId_clear_session w : sessionId (clear_session w) = None.
Proof. reflexivity. Qed.

Lemma wire_clear_session w : wire (clear_session w) = wire w.
Proof. reflexivity. Qed.

Lemma keys_cleared_clear_session w : keys_cleared (clear_session w).
Proof.
  intros ls. unfold clear_session, removeItem, with_localStorage; simpl.
  destruct (localStorage w) as [store|]; simpl; [|discriminate].
  intros [= <-]. split.
  - rewrite lookup_delete_ne by discriminate. apply lookup_delete_eq.
  - apply lookup_delete_eq.
Qed.

Lemma wire_after_rejection e w : wire (after_rejection e w) = wire w.
Proof. unfold after_rejection. case_bool_decide; reflexivity. Qed.

Lemma sessionId_after_rejection e w :
  sessionId (after_rejection e w)
  = if bool_decide (error_status e = Some 401) then None else sessionId w.
Proof. unfold after_rejection. case_bool_decide; reflexivity. Qed.

Lemma after_rejection_401 e w :
  error_status e = Some 401 -> after_rejection e w = clear_session w.
Proof. intros H. unfold after_rejection. rewrite bool_decide_eq_true_2; done. Qed.

Lemma after_rejection_other e w :
  error_status e <> Some 401 -> after_rejection e w = w.
Proof. intros H. unfold after_rejection. rewrite bool_decide_eq_false_2; done. Qed.

Lemma outgoing_no_session w m u b :
  sessionId w = None -> no_bearer (outgoing w m u b).
Proof. intros H. unfold outgoing, request_interceptor. rewrite H. reflexivity. Qed.

(** Each method, on each answer. *)

Lemma startSession_resolved creds data w :
  startSession creds (Resolved data) w
  = (Return data,
     setItem ENCRYPTED_CREDENTIALS (encrypted_credentials data)
       (setItem SESSION_ID (session_id data)
          (with_sessionId (Some (session_id data))
             (with_wire
                (outgoing w POST "/api/start-session" (CredentialsBody creds)) w)))).
Proof. reflexivity. Qed.

Lemma startSession_rejected creds e w :
  startSession creds (Rejected e) w
  = (Throw {| message := or_else (error_detail e) "Failed to start session" |},
     after_rejection e
       (with_wire (outgoing w POST "/api/start-session" (CredentialsBody creds)) w)).
Proof.
  unfold startSession, try_catch, mbind, Js_bind, bind.
  rewrite client_request_rejected. reflexivity.
Qed.

Lemma endSession_eq reply w :
  endSession reply w
  = (Return tt,
     clear_session
       (if holds_session w
        then match reply with
             | Resolved _ => with_wire (outgoing w DELETE "/api/session" NoBody) w
             | Rejected e =>
                 with_console ("Error ending session:", e)
                   (after_rejection e
                      (with_wire (outgoing w DELETE "/api/session" NoBody) w))
             end
        else w)).
Proof.
  unfold endSession, try_finally, try_catch, mbind, Js_bind, bind, read,
    holds_session.
  destruct (sessionId w) as [s|]; [destruct (truthy s)|]; try reflexivity.
  destruct reply as [[]|e].
  - reflexivity.
  - rewrite client_request_rejected. reflexivity.
Qed.

(** A method that is one request in a [try] whose [catch] rethrows. *)
Lemma rethrowing_method {A} m u b (reply : AxiosReply A) (msg : AxiosError -> string) w :
  try_catch (client_request m u b reply)
    (fun error => throw {| message := msg error |}) w
  = match reply with
    | Resolved data => (Return data, with_wire (outgoing w m u b) w)
    | Rejected e =>
        (Throw {| message := msg e |},
         after_rejection e (with_wire (outgoing w m u b) w))
    end.
Proof.
  unfold try_catch. destruct reply as [data|e].
  - reflexivity.
  - rewrite client_request_rejected. reflexivity.
Qed.

Lemma run_call_rejected c e w :
  call_error c = Some e -> is_endSession c = false ->
  run_call c w
  = (Throw {| message := thrown_message c e |},
     after_rejection e (with_wire (call_request c w) w)).
Proof.
  intros He Hc.
  destruct c as [creds [?|?]|?|rq [?|?]|j [?|?]|[?|?]|j [?|?]|[?|?]|[?|?]];
    try discriminate; injection He as ->; unfold run_call, void.
  - rewrite startSession_rejected. reflexivity.
  - unfold startAutomation. rewrite rethrowing_method. reflexivity.
  - unfold getJobStatus. rewrite rethrowing_method. reflexivity.
  - unfold getUserJobs. rewrite rethrowing_method. reflexivity.
  - unfold cancelJob. rewrite rethrowing_method. reflexivity.
  - unfold getPrivacyPolicy.
    rewrite (rethrowing_method _ _ _ _ (fun _ => "Failed to load privacy policy")).
    reflexivity.
  - unfold healthCheck.
    rewrite (rethrowing_method _ _ _ _ (fun _ => "Health check failed")).
    reflexivity.
Qed.

Lemma run_call_resolved c w :
  call_error c = None -> is_endSession c = false -> starts_session c = false ->
  run_call c w = (Return tt, with_wire (call_request c w) w).
Proof.
  intros He Hc Hs.
  destruct c as [creds [?|?]|?|rq [?|?]|j [?|?]|[?|?]|j [[]|?]|[?|?]|[?|?]];
    try discriminate; reflexivity.
Qed.

Lemma run_call_endSession reply w :
  run_call (EndSession reply) w = endSession reply w.
Proof. reflexivity. Qed.

Lemma run_call_startSession creds data w :
  run_call (StartSession creds (Resolved data)) w
  = (Return tt, snd (startSession creds (Resolved data) w)).
Proof. reflexivity. Qed.

(** ** Requests sent without a session *)

Local Open Scope list_scope.

Lemma run_call_without_session c w :
  sessionId w = None -> starts_session c = false ->
  sessionId (snd (run_call c w)) = None /\
  exists later,
    wire (snd (run_call c w)) = wire w ++ later /\ Forall no_bearer later.
Proof.
  intros Hw Hc.
  destruct (is_endSession c) eqn:Hend.
  - destruct c; try discriminate.
    rewrite run_call_endSession, endSession_eq. unfold holds_session.
    rewrite Hw. simpl. split; [reflexivity|].
    exists []. rewrite app_nil_r. split; [reflexivity | constructor].
  - assert (Hreq : no_bearer (call_request c w))
      by (apply outgoing_no_session, Hw).
    destruct (call_error c) as [e|] eqn:He.
    + rewrite (run_call_rejected c e w He Hend). simpl.
      rewrite sessionId_after_rejection, wire_after_rejection. simpl.
      split; [case_bool_decide; [reflexivity | exact Hw]|].
      exists [call_request c w]. split; [reflexivity|].
      constructor; [exact Hreq | constructor].
    + rewrite (run_call_resolved c w He Hend Hc). simpl.
      split; [exact Hw|].
      exists [call_request c w]. split; [reflexivity|].
      constructor; [exact Hreq | constructor].
Qed.

Lemma run_calls_without_session cs : forall w,
  sessionId w = None -> forallb (fun c => negb (starts_session c)) cs = true ->
  sessionId (run_calls cs w) = None /\
  exists later,
    wire (run_calls cs w) = wire w ++ later /\ Forall no_bearer later.
Proof.
  induction cs as [|c cs IH]; intros w Hw Hcs.
  - split; [exact Hw|]. exists []. rewrite app_nil_r.
    split; [reflexivity | constructor].
  - change (run_calls (c :: cs) w) with (run_calls cs (snd (run_call c w))).
    simpl in Hcs. apply andb_prop in Hcs as [Hc Hcs].
    apply negb_true_iff in Hc.
    destruct (run_call_without_session c w Hw Hc) as (Hs & l1 & Hwire1 & Hl1).
    destruct (IH _ Hs Hcs) as (Hs' & l2 & Hwire2 & Hl2).
    split; [exact Hs'|].
    exists (l1 ++ l2). split.
    + rewrite Hwire2, Hwire1, app_assoc. reflexivity.
    + apply Forall_app; split; assumption.
Qed.

(** C1. A response with status 401, to any request of the client: the
    response interceptor sets the in-memory session id to null, removes
    [session_id] and [encrypted_credentials] from the local store and
    rejects with the very error it received; the request was sent once;
    and every request of every later sequence of calls that starts no new
    session leaves without a bearer header. *)
Theorem unauthorized_response_drops_session :
  forall (A : Type) (m : Method) (u : string) (b : Body) (e : AxiosError)
         (w : World),
    error_status e = Some 401 ->
    let after := @client_request A m u b (Rejected e) w in
    fst after = Throw e /\
    sessionId (snd after) = None /\
    keys_cleared (snd after) /\
    wire (snd after) = wire w ++ [outgoing w m u b] /\
    forall cs : list ApiCall,
      forallb (fun c => negb (starts_session c)) cs = true ->
      exists later,
        wire (run_calls cs (snd after)) = wire (snd after) ++ later /\
        Forall no_bearer later.
Proof.
  intros A m u b e w H401 after. subst after.
  rewrite client_request_rejected, (after_rejection_401 _ _ H401). simpl.
  split; [reflexivity|]. split; [reflexivity|].
  split; [apply keys_cleared_clear_session|].
  split; [reflexivity|].
  intros cs Hcs.
  apply run_calls_without_session; [reflexivity | exact Hcs].
Qed.

(** ** Ending a session *)

(** C5. [endSession] returns normally on every answer of the backend
    (accepted, server error, transport error) and from every world; on
    return the in-memory session id is null and both keys are gone from
    the local store; a rejected notification is logged on the console and
    nothing else is. *)
Theorem endSession_never_throws :
  forall (reply : AxiosReply unit) (w : World),
    let after := endSession reply w in
    fst after = Return tt /\
    sessionId (snd after) = None /\
    keys_cleared (snd after) /\
    console (snd after)
    = match reply with
      | Rejected e =>
          if holds_session w
          then console w ++ [("Error ending session:"%string, e)]
          else console w
      | Resolved _ => console w
      end.
Proof.
  intros reply w after. subst after. rewrite endSession_eq. simpl.
  split; [reflexivity|]. split; [reflexivity|].
  split; [apply keys_cleared_clear_session|].
  destruct (holds_session w), reply as [[]|e]; try reflexivity.
  unfold with_console, after_rejection. case_bool_decide; reflexivity.
Qed.

(** C10. [endSession] called while the in-memory session id is null puts
    nothing on the wire, still removes both keys from the local store, and
    returns normally. *)
Theorem endSession_without_session :
  forall (reply : AxiosReply unit) (w : World),
    sessionId w = None ->
    let after := endSession reply w in
    fst after = Return tt /\
    wire (snd after) = wire w /\
    sessionId (snd after) = None /\
    keys_cleared (snd after).
Proof.
  intros reply w Hw after. subst after. rewrite endSession_eq.
  unfold holds_session. rewrite Hw. simpl.
  split; [reflexivity|]. split; [reflexivity|]. split; [reflexivity|].
  apply keys_cleared_clear_session.
Qed.

(** ** Starting a session *)

(** C9. A [startSession] that fails with anything but a 401 (a transport
    error, or an error response with another status) throws and leaves
    the in-memory session id and the local store as they were; the id is
    assigned and the two keys are written on a successful response. *)
Theorem startSession_failure_keeps_state :
  forall (creds : Credentials) (e : AxiosError) (w : World),
    error_status e <> Some 401 ->
    let after := startSession creds (Rejected e) w in
    fst after
    = Throw {| message := or_else (error_detail e) "Failed to start session" |} /\
    sessionId (snd after) = sessionId w /\
    localStorage (snd after) = localStorage w /\
    forall data : SessionResponse,
      let ok := startSession creds (Resolved data) w in
      fst ok = Return data /\
      sessionId (snd ok) = Some (session_id data) /\
      localStorage (snd ok)
      = (fun ls => <[ENCRYPTED_CREDENTIALS := encrypted_credentials data]>
                     (<[SESSION_ID := session_id data]> ls))
        <$> localStorage w.
Proof.
  intros creds e w He after. subst after.
  rewrite startSession_rejected, (after_rejection_other _ _ He). simpl.
  split; [reflexivity|]. split; [reflexivity|].
  split; [reflexivity|].
  intros data.
  split; [reflexivity|]. split; [reflexivity|].
  simpl. destruct (localStorage w); reflexivity.
Qed.

(** ** The authentication gate *)

(** C6. [isAuthenticated] is a function of the world alone and is true
    exactly when an in-memory session id is held; it is true right after a
    successful [startSession], false right after [endSession], and false
    right after any call that the backend answered with status 401, as
    well as after any 401 response to a request of the client. *)
Theorem isAuthenticated_tracks_session :
  (forall w, isAuthenticated w = true <-> sessionId w <> None) /\
  (forall creds data w,
     isAuthenticated (snd (startSession creds (Resolved data) w)) = true) /\
  (forall reply w, isAuthenticated (snd (endSession reply w)) = false) /\
  (forall c e w,
     call_error c = Some e -> error_status e = Some 401 ->
     isAuthenticated (snd (run_call c w)) = false) /\
  (forall A m u b e w,
     error_status e = Some 401 ->
     isAuthenticated (snd (@client_request A m u b (Rejected e) w)) = false).
Proof.
  split; [|split; [|split; [|split]]].
  - intros w. unfold isAuthenticated. destruct (sessionId w); split;
      congruence.
  - intros creds data w. rewrite startSession_resolved. reflexivity.
  - intros reply w. rewrite endSession_eq. reflexivity.
  - intros c e w He H401. destruct (is_endSession c) eqn:Hend.
    + destruct c; try discriminate.
      rewrite run_call_endSession, endSession_eq. reflexivity.
    + rewrite (run_call_rejected c e w He Hend), (after_rejection_401 _ _ H401).
      reflexivity.
  - intros A m u b e w H401.
    rewrite client_request_rejected, (after_rejection_401 _ _ H401).
    reflexivity.
Qed.

(** ** The two persisted keys *)

Lemma localStorage_clear_session w :
  localStorage (clear_session w) = remove_both <$> localStorage w.
Proof.
  unfold clear_session, removeItem, with_localStorage; simpl.
  destruct (localStorage w); reflexivity.
Qed.

Lemma remove_both_twice ls : remove_both (remove_both ls) = remove_both ls.
Proof.
  apply map_eq. intros k. unfold remove_both.
  rewrite !lookup_delete. repeat case_decide; reflexivity.
Qed.

Lemma store_effect_after_rejection e w :
  store_effect (localStorage w) (localStorage (after_rejection e w)).
Proof.
  unfold after_rejection. case_bool_decide.
  - rewrite localStorage_clear_session. constructor.
  - constructor.
Qed.

Lemma store_effect_client_request {A} m u b (reply : AxiosReply A) w :
  store_effect (localStorage w) (localStorage (snd (client_request m u b reply w))).
Proof.
  destruct reply as [data|e].
  - constructor.
  - rewrite client_request_rejected. simpl.
    apply (store_effect_after_rejection e (with_wire (outgoing w m u b) w)).
Qed.

Lemma store_effect_run_call c w :
  store_effect (localStorage w) (localStorage (snd (run_call c w))).
Proof.
  destruct (is_endSession c) eqn:Hend.
  - destruct c as [| reply | | | | | |]; try discriminate.
    rewrite run_call_endSession, endSession_eq. cbn [snd].
    rewrite localStorage_clear_session.
    destruct (holds_session w); [|constructor].
    destruct reply as [[]|e]; [constructor|].
    unfold after_rejection. case_bool_decide; [|constructor].
    change (localStorage (with_console _ ?x)) with (localStorage x).
    rewrite localStorage_clear_session.
    change (localStorage (with_wire _ ?x)) with (localStorage x).
    destruct (localStorage w) as [ls|]; [|constructor].
    cbn [fmap option_fmap option_map]. rewrite remove_both_twice.
    apply (both_removed (Some ls)).
  - destruct (call_error c) as [e|] eqn:He.
    + rewrite (run_call_rejected c e w He Hend). simpl.
      apply (store_effect_after_rejection e (with_wire (call_request c w) w)).
    + destruct (starts_session c) eqn:Hs.
      * destruct c as [creds [data|?]| | | | | | |]; try discriminate.
        rewrite run_call_startSession, startSession_resolved. simpl.
        destruct (localStorage w) as [ls|]; simpl; [|constructor].
        apply (both_written (Some ls)).
      * rewrite (run_call_resolved c w He Hend Hs). constructor.
Qed.

Lemma store_effect_paired before after :
  store_effect before after -> paired before -> paired after.
Proof.
  intros [| sid enc |] Hp; [exact Hp | |]; intros ls' Hls';
    destruct before as [ls|]; try discriminate; injection Hls' as <-.
  - unfold write_both. rewrite lookup_insert_ne by discriminate.
    rewrite !lookup_insert_eq. split; eauto.
  - unfold remove_both. rewrite lookup_delete_ne by discriminate.
    rewrite !lookup_delete_eq. split; intros [? [=]].
Qed.

(** C7. Every call of the client, from every world, does to the local
    store one of three things: nothing, write both [session_id] and
    [encrypted_credentials], or remove both; so does every request through
    the interceptors. Hence along every sequence of calls the two keys stay
    paired: if one is stored exactly when the other is at the start, the
    same holds at the end. *)
Theorem persisted_keys_change_together :
  forall (cs : list ApiCall) (w : World),
    (forall c, store_effect (localStorage (run_calls cs w))
                 (localStorage (snd (run_call c (run_calls cs w))))) /\
    (forall A m u b (reply : AxiosReply A),
        store_effect (localStorage (run_calls cs w))
          (localStorage (snd (client_request m u b reply (run_calls cs w))))) /\
    (paired (localStorage w) -> paired (localStorage (run_calls cs w))).
Proof.
  intros cs w. split; [|split].
  - intros c. apply store_effect_run_call.
  - intros A m u b reply. apply store_effect_client_request.
  - revert w. induction cs as [|c cs IH]; intros w Hp; [exact Hp|].
    change (run_calls (c :: cs) w) with (run_calls cs (snd (run_call c w))).
    apply IH. eapply store_effect_paired; [apply store_effect_run_call | exact Hp].
Qed.

(** ** The error policy *)

(** C2, as stated, fails: [getPrivacyPolicy] answered with status 503 and
    a structured message throws its fixed message, not the structured one. *)
Lemma getPrivacyPolicy_ignores_detail :
  let c := GetPrivacyPolicy (Rejected policy_unavailable) in
  call_error c = Some policy_unavailable /\
  is_endSession c = false /\
  spec_message c policy_unavailable = "Policy temporarily unavailable"%string /\
  fst (run_call c (new_ApiClient None))
  = Throw {| message := "Failed to load privacy policy"%string |} /\
  fst (run_call c (new_ApiClient None))
  <> Throw {| message := spec_message c policy_unavailable |}.
Proof.
  repeat split; discriminate.
Qed.

(** C2, amended. Every operation other than [endSession], on every
    rejection (transport or server-reported), sends its one request and
    throws one [Error]. For [startSession], [startAutomation],
    [getJobStatus], [getUserJobs] and [cancelJob] its message is the
    structured message of the response body when that is present and not
    empty, and the operation's fixed fallback otherwise; for
    [getPrivacyPolicy] and [healthCheck] it is the operation's fixed
    message whatever the body holds. *)
Theorem failed_call_throws_normalized_error :
  forall (c : ApiCall) (e : AxiosError) (w : World),
    call_error c = Some e -> is_endSession c = false ->
    fst (run_call c w)
    = Throw {| message :=
                 if is_utility c then fallback_message c
                 else match error_detail e with
                      | Some structured =>
                          if truthy structured then structured
                          else fallback_message c
                      | None => fallback_message c
                      end |} /\
    wire (snd (run_call c w)) = wire w ++ [call_request c w].
Proof.
  intros c e w He Hend. rewrite (run_call_rejected c e w He Hend).
  cbn [fst snd]. rewrite wire_after_rejection. split; reflexivity.
Qed.

(** ** The dashboard poller *)

Lemma StronglySorted_lookup_lt {A} (R : relation A) (l : list A) :
  StronglySorted R l ->
  forall i j a b, (i < j)%nat -> l !! i = Some a -> l !! j = Some b -> R a b.
Proof.
  induction 1 as [|x l Hl IH Hx]; intros i j a b Hij Ha Hb.
  - rewrite lookup_nil in Ha. discriminate.
  - destruct j as [|j]; [lia|]. cbn in Hb.
    destruct i as [|i]; cbn in Ha.
    + injection Ha as <-. rewrite Forall_forall in Hx. apply Hx.
      apply list_elem_of_lookup. eauto.
    + apply (IH i j); [lia | assumption | assumption].
Qed.

Section DashboardProperties.

Variable getTime : string -> option Z.

#[local] Instance sort_le_total : Total (sort_le getTime).
Proof.
  intros a b. unfold sort_le, compare_created.
  destruct (getTime (created_at a)), (getTime (created_at b)); simpl; lia.
Qed.

#[local] Instance not_older_trans : Transitive (not_older getTime).
Proof. unfold not_older. intros a b c. lia. Qed.

Lemma sort_le_dated a b :
  dated getTime a -> dated getTime b -> sort_le getTime a b -> not_older getTime a b.
Proof.
  unfold dated, sort_le, compare_created, not_older, created.
  intros [ta ->] [tb ->]. simpl. lia.
Qed.

Lemma Sorted_dated l :
  Forall (dated getTime) l -> Sorted (sort_le getTime) l -> Sorted (not_older getTime) l.
Proof.
  intros Hd Hs. induction Hs as [|x l Hs IH Hhd]; [constructor|].
  apply Forall_cons in Hd as [Hx Hl]. constructor; [exact (IH Hl)|].
  destruct Hhd as [|y l Hxy]; constructor.
  apply Forall_cons in Hl as [Hy _]. apply sort_le_dated; assumption.
Qed.

Lemma insert_job_Permutation x l : insert_job getTime x l ≡ₚ x :: l.
Proof.
  induction l as [|y l IH]; [reflexivity|]. cbn [insert_job].
  destruct (decide (sort_le getTime x y)); [reflexivity|].
  rewrite IH. apply Permutation_swap.
Qed.

Lemma sort_jobs_Permutation js : sort_jobs getTime js ≡ₚ js.
Proof.
  induction js as [|x js IH]; [reflexivity|].
  cbn [sort_jobs foldr]. rewrite insert_job_Permutation.
  constructor. exact IH.
Qed.

Lemma HdRel_insert_job (z x : JobStatus) l :
  sort_le getTime z x -> HdRel (sort_le getTime) z l ->
  HdRel (sort_le getTime) z (insert_job getTime x l).
Proof.
  intros Hzx Hz. destruct l as [|y l]; cbn [insert_job].
  - constructor. exact Hzx.
  - destruct (decide (sort_le getTime x y)); constructor; [exact Hzx|].
    inversion Hz; assumption.
Qed.

Lemma Sorted_insert_job x l :
  Sorted (sort_le getTime) l -> Sorted (sort_le getTime) (insert_job getTime x l).
Proof.
  induction 1 as [|y l Hl IH Hy]; cbn [insert_job].
  - repeat constructor.
  - destruct (decide (sort_le getTime x y)) as [Hxy|Hxy].
    + constructor; [constructor; assumption|]. constructor. exact Hxy.
    + constructor; [exact IH|]. apply HdRel_insert_job; [|exact Hy].
      destruct (sort_le_total x y); [contradiction | assumption].
Qed.

Lemma Sorted_sort_jobs js : Sorted (sort_le getTime) (sort_jobs getTime js).
Proof.
  induction js as [|x js IH]; [constructor|].
  cbn [sort_jobs foldr]. apply Sorted_insert_job, IH.
Qed.

Lemma sort_jobs_newest_first js :
  Forall (dated getTime) js -> newest_first getTime (sort_jobs getTime js).
Proof.
  intros Hd.
  assert (Hs : StronglySorted (not_older getTime) (sort_jobs getTime js)).
  { apply Sorted_StronglySorted; [apply _|]. apply Sorted_dated.
    - rewrite sort_jobs_Permutation. exact Hd.
    - apply Sorted_sort_jobs. }
  intros i j a b ta tb Hij Ha Hb Hta Htb.
  pose proof (StronglySorted_lookup_lt _ _ Hs i j a b Hij Ha Hb) as H.
  unfold not_older, created in H. rewrite Hta, Htb in H. exact H.
Qed.

(** The sort is stable: among dated jobs, those created at the same time
    keep the order they were fetched in. *)
Lemma filter_insert_job (t : Z) x l :
  dated getTime x -> Forall (dated getTime) l ->
  filter (fun j => created getTime j = t) (insert_job getTime x l)
  = filter (fun j => created getTime j = t) (x :: l).
Proof.
  intros Hx Hl. induction l as [|y l IH]; [reflexivity|].
  apply Forall_cons in Hl as [Hy Hl]. cbn [insert_job].
  destruct (decide (sort_le getTime x y)) as [Hxy|Hxy]; [reflexivity|].
  assert (Hlt : created getTime x < created getTime y).
  { revert Hxy. destruct Hx as [tx Hx], Hy as [ty Hy].
    unfold sort_le, compare_created, created. rewrite Hx, Hy. cbn. lia. }
  rewrite (filter_cons _ y), (IH Hl), !(filter_cons _ x), (filter_cons _ y).
  destruct (decide (created getTime y = t)), (decide (created getTime x = t));
    try reflexivity. lia.
Qed.

Lemma sort_jobs_stable (t : Z) js :
  Forall (dated getTime) js ->
  filter (fun j => created getTime j = t) (sort_jobs getTime js)
  = filter (fun j => created getTime j = t) js.
Proof.
  induction js as [|x js IH]; intros Hd; [reflexivity|].
  apply Forall_cons in Hd as [Hx Hd].
  change (sort_jobs getTime (x :: js))
    with (insert_job getTime x (sort_jobs getTime js)).
  rewrite filter_insert_job; [| exact Hx | rewrite sort_jobs_Permutation; exact Hd].
  rewrite !(filter_cons _ x), (IH Hd). reflexivity.
Qed.

Lemma loadJobs_resolved js w d :
  loadJobs getTime (Resolved js) (w, d)
  = (with_wire (outgoing w GET "/api/jobs" NoBody) w,
     loadJobs_finally (setJobs (sort_jobs getTime js) d)).
Proof. reflexivity. Qed.

Lemma loadJobs_rejected e w d :
  loadJobs getTime (Rejected e) (w, d)
  = (after_rejection e (with_wire (outgoing w GET "/api/jobs" NoBody) w),
     loadJobs_finally
       (if includes (or_else (error_detail e) "Failed to get user jobs") "401"
        then d else toast_error "Failed to load jobs" d)).
Proof.
  unfold loadJobs, getUserJobs. rewrite rethrowing_method. cbn [message].
  destruct (includes _ _); reflexivity.
Qed.

(** C4, amended. Whatever the earlier responses were and whatever the
    dashboard showed, after a successful fetch the displayed list is a
    reordering of the fetched list alone; when every fetched job carries a
    creation time that parses as a date, the list is most recently created
    first. *)
Theorem loadJobs_shows_fetched_newest_first :
  forall (replies replies' : list (AxiosReply (list JobStatus)))
         (fetched : list JobStatus) (s s' : World * Dashboard),
    let shown := jobs (snd (poll getTime (replies ++ [Resolved fetched]) s)) in
    shown = jobs (snd (poll getTime (replies' ++ [Resolved fetched]) s')) /\
    shown ≡ₚ fetched /\
    (Forall (dated getTime) fetched -> newest_first getTime shown).
Proof.
  intros replies replies' fetched s s' shown. subst shown.
  unfold poll. rewrite !fold_left_app. cbn [fold_left].
  destruct (fold_left _ replies s) as [w d].
  destruct (fold_left _ replies' s') as [w' d']. rewrite !loadJobs_resolved.
  cbn [snd jobs loadJobs_finally setJobs].
  split; [reflexivity|]. split.
  - apply sort_jobs_Permutation.
  - apply sort_jobs_newest_first.
Qed.

(** C3, on the code. A fetch rejected with status 401 and no structured
    message, and one rejected with status 401 and the message
    "Session expired", each show the toast; a fetch rejected with status
    500 whose message mentions 401 shows none. *)
Theorem loadJobs_unauthorized_shows_toast :
  forall (w : World) (d : Dashboard),
    toasts (snd (loadJobs getTime
                   (Rejected {| response :=
                                  Some {| http_status := 401; detail := None |} |})
                   (w, d)))
    = toasts d ++ ["Failed to load jobs"%string] /\
    toasts (snd (loadJobs getTime
                   (Rejected {| response :=
                                  Some {| http_status := 401;
                                          detail := Some "Session expired"%string |} |})
                   (w, d)))
    = toasts d ++ ["Failed to load jobs"%string] /\
    toasts (snd (loadJobs getTime
                   (Rejected {| response :=
                                  Some {| http_status := 500;
                                          detail := Some "Scraper stopped after 401 products"%string |} |})
                   (w, d)))
    = toasts d.
Proof.
  intros w d. rewrite !loadJobs_rejected. repeat split.
Qed.

End DashboardProperties.

(** C4, as stated, fails: a fetched job whose [created_at] is not a date,
    between an older and a newer job, leaves the three as they were
    fetched, the newer job last. *)
Lemma loadJobs_undated_job_breaks_order :
  let shown :=
    jobs (snd (poll strict_clock [Resolved undated_between]
                 (logged_in, loading_dashboard))) in
  shown = undated_between /\ ~ newest_first strict_clock shown.
Proof.
  cbv zeta. unfold poll. cbn [fold_left]. rewrite loadJobs_resolved.
  cbn [snd jobs loadJobs_finally setJobs].
  split; [reflexivity|].
  intros H.
  specialize (H 0%nat 2%nat (sample_job "job-a" "2024-01")
                (sample_job "job-b" "2024-01-02") 7 10).
  assert (Hle : 10 <= 7) by (apply H; [lia | reflexivity..]).
  lia.
Qed.

(** ** The landing form *)

Lemma apply_edit_keeps_config v e :
  edits_config e = false ->
  submitted_config (apply_edit v e) = submitted_config v.
Proof. destruct e; intros He; try discriminate; reflexivity. Qed.

Lemma form_after_keeps_config es : forall v,
  forallb (fun e => negb (edits_config e)) es = true ->
  submitted_config (fold_left apply_edit es v) = submitted_config v.
Proof.
  induction es as [|e es IH]; intros v Hes; [reflexivity|].
  cbn [forallb] in Hes. apply andb_prop in Hes as [He Hes].
  apply negb_true_iff in He. cbn [fold_left].
  rewrite (IH _ Hes). apply apply_edit_keeps_config, He.
Qed.

(** C8. When no edit touches a field of the automation config (the user
    only types the three credentials), the config built by [onSubmit] is
    [defaultAutomationConfig], whose fields are
    [electronics, home, fashion, health], 5, 300, 50, 4, 10, 5 and 500;
    and once the session has started, the start-automation request carries
    exactly that config. *)
Theorem untouched_form_submits_defaults :
  forall (es : list FormEdit),
    forallb (fun e => negb (edits_config e)) es = true ->
    submitted_config (form_after es)
    = {| categories := ["electronics"; "home"; "fashion"; "health"]%string;
         max_products_per_category := 5 # 1;
         post_interval_seconds := 300 # 1;
         daily_pin_limit := 50 # 1;
         min_rating := 4 # 1;
         min_reviews := 10 # 1;
         price_range_min := 5 # 1;
         price_range_max := 500 # 1 |} /\
    submitted_config (form_after es) = defaultAutomationConfig /\
    forall (session : SessionResponse) (automation_reply : AxiosReply JobResponse)
           (w : World),
      body <$> last (wire (snd (onSubmit (form_after es) (Resolved session)
                                  automation_reply w)))
      = Some (AutomationBody
                {| credentials := submitted_credentials (form_after es);
                   config := defaultAutomationConfig |}).
Proof.
  intros es Hes.
  assert (Hc : submitted_config (form_after es) = defaultAutomationConfig)
    by (unfold form_after; rewrite (form_after_keeps_config es _ Hes); reflexivity).
  split; [exact Hc|]. split; [exact Hc|].
  intros session automation_reply w.
  unfold onSubmit, mbind, mret, Js_bind, Js_ret, bind.
  rewrite startSession_resolved. unfold startAutomation.
  rewrite rethrowing_method, Hc.
  destruct automation_reply as [job|e]; cbn -[outgoing];
    rewrite ?wire_after_rejection; cbn -[outgoing];
    rewrite last_snoc; cbn -[outgoing];
    unfold outgoing, request_interceptor; cbn;
    destruct (truthy (session_id session)); reflexivity.
Qed.

(** ** The theorems at concrete inputs *)

Lemma unauthorized_response_drops_session_witness :
  error_status unauthorized = Some 401 /\
  forallb (fun c => negb (starts_session c))
    [GetUserJobs (Rejected offline); EndSession (Resolved tt)] = true /\
  let after :=
    @client_request (list JobStatus) GET "/api/jobs" NoBody
      (Rejected unauthorized) logged_in in
  fst after = Throw unauthorized /\
  sessionId (snd after) = None /\
  exists later,
    wire (run_calls [GetUserJobs (Rejected offline); EndSession (Resolved tt)]
            (snd after))
    = wire (snd after) ++ later /\
    Forall no_bearer later.
Proof.
  split; [reflexivity|]. split; [reflexivity|].
  destruct (unauthorized_response_drops_session (list JobStatus) GET
              "/api/jobs" NoBody unauthorized logged_in eq_refl)
    as (H1 & H2 & _ & _ & H5).
  split; [exact H1|]. split; [exact H2|].
  apply H5. reflexivity.
Defined.

Lemma failed_call_throws_normalized_error_witness :
  call_error (CancelJob "job-7" (Rejected job_not_found)) = Some job_not_found /\
  is_endSession (CancelJob "job-7" (Rejected job_not_found)) = false /\
  fst (run_call (CancelJob "job-7" (Rejected job_not_found)) logged_in)
  = Throw {| message := "Job not found"%string |}.
Proof.
  split; [reflexivity|]. split; [reflexivity|].
  exact (proj1 (failed_call_throws_normalized_error
                  (CancelJob "job-7" (Rejected job_not_found)) job_not_found
                  logged_in eq_refl eq_refl)).
Defined.

Lemma loadJobs_shows_fetched_newest_first_witness :
  Forall (dated length_clock)
    [sample_job "older" "2024-01"; sample_job "newer" "2024-01-02"] /\
  newest_first length_clock
    (jobs (snd (poll length_clock
                  ([Rejected offline] ++
                   [Resolved [sample_job "older" "2024-01";
                              sample_job "newer" "2024-01-02"]])
                  (logged_in,
                   {| jobs := []; loading := true; refreshing := false;
                      toasts := [] |})))).
Proof.
  assert (Hd : Forall (dated length_clock)
                 [sample_job "older" "2024-01"; sample_job "newer" "2024-01-02"])
    by (repeat constructor; eexists; reflexivity).
  split; [exact Hd|].
  exact (proj2 (proj2 (loadJobs_shows_fetched_newest_first length_clock
                         [Rejected offline] [] _ _
                         (logged_in, loading_dashboard))) Hd).
Defined.

Lemma isAuthenticated_tracks_session_witness :
  call_error (GetUserJobs (Rejected unauthorized)) = Some unauthorized /\
  error_status unauthorized = Some 401 /\
  isAuthenticated logged_in = true /\
  isAuthenticated (snd (run_call (GetUserJobs (Rejected unauthorized)) logged_in))
  = false.
Proof.
  split; [reflexivity|]. split; [reflexivity|].
  destruct isAuthenticated_tracks_session as (_ & Hstart & _ & H401 & _).
  split.
  - exact (Hstart sample_credentials sample_session fresh_tab).
  - exact (H401 (GetUserJobs (Rejected unauthorized)) unauthorized logged_in
             eq_refl eq_refl).
Defined.

Lemma persisted_keys_change_together_witness :
  paired (localStorage fresh_tab) /\
  paired (localStorage
            (run_calls [StartSession sample_credentials (Resolved sample_session);
                        GetUserJobs (Rejected unauthorized)]
               fresh_tab)).
Proof.
  assert (Hp : paired (localStorage fresh_tab)).
  { intros ls [= <-]. rewrite !lookup_empty. split; intros [? [=]]. }
  split; [exact Hp|].
  exact (proj2 (proj2 (persisted_keys_change_together
                         [StartSession sample_credentials (Resolved sample_session);
                          GetUserJobs (Rejected unauthorized)]
                         fresh_tab)) Hp).
Defined.

Lemma untouched_form_submits_defaults_witness :
  forallb (fun e => negb (edits_config e))
    [TypePinterestToken "pina_token"; TypeAmazonTag "shop-20";
     TypeSessionPassword "correct horse"] = true /\
  submitted_config
    (form_after [TypePinterestToken "pina_token"; TypeAmazonTag "shop-20";
                 TypeSessionPassword "correct horse"])
  = defaultAutomationConfig.
Proof.
  split; [reflexivity|].
  exact (proj1 (proj2 (untouched_form_submits_defaults
                         [TypePinterestToken "pina_token"; TypeAmazonTag "shop-20";
                          TypeSessionPassword "correct horse"] eq_refl))).
Defined.

Lemma startSession_failure_keeps_state_witness :
  error_status offline <> Some 401 /\
  sessionId (snd (startSession sample_credentials (Rejected offline) logged_in))
  = Some "s-42"%string /\
  localStorage (snd (startSession sample_credentials (Rejected offline) logged_in))
  = localStorage logged_in.
Proof.
  assert (H : error_status offline <> Some 401) by discriminate.
  split; [exact H|].
  destruct (startSession_failure_keeps_state sample_credentials offline
              logged_in H) as (_ & Hs & Hl & _).
  split; [exact Hs | exact Hl].
Defined.

Lemma endSession_without_session_witness :
  sessionId fresh_tab = None /\
  fst (endSession (Resolved tt) fresh_tab) = Return tt /\
  wire (snd (endSession (Resolved tt) fresh_tab)) = [].
Proof.
  split; [reflexivity|].
  destruct (endSession_without_session (Resolved tt) fresh_tab eq_refl)
    as (Hr & Hw & _).
  split; [exact Hr | exact Hw].
Defined.

(** * Further properties of the client *)

(** ** The wire *)

Lemma wire_run_call c w :
  wire (snd (run_call c w))
  = if is_endSession c && negb (holds_session w)
    then wire w
    else wire w ++ [call_request c w].
Proof.
  destruct (is_endSession c) eqn:Hend.
  - destruct c as [| reply | | | | | |]; try discriminate.
    rewrite run_call_endSession, endSession_eq. cbn [snd andb].
    rewrite wire_clear_session.
    destruct (holds_session w); cbn [negb]; [|reflexivity].
    destruct reply as [[]|e]; [reflexivity|].
    change (wire (with_console _ ?x)) with (wire x).
    rewrite wire_after_rejection. reflexivity.
  - cbn [andb]. destruct (call_error c) as [e|] eqn:He.
    + rewrite (run_call_rejected c e w He Hend). cbn [snd].
      rewrite wire_after_rejection. reflexivity.
    + destruct (starts_session c) eqn:Hs.
      * destruct c as [creds [data|?]| | | | | | |]; try discriminate.
        reflexivity.
      * rewrite (run_call_resolved c w He Hend Hs). reflexivity.
Qed.

Lemma call_request_line c w : same_line c (call_request c w).
Proof.
  unfold same_line, call_request, outgoing, request_interceptor.
  destruct (sessionId w) as [sid|]; [destruct (truthy sid)|]; repeat split.
Qed.

Lemma call_request_bearer c w :
  authorization (call_request c w)
  = match sessionId w with
    | Some sid => if truthy sid then Some ("Bearer " +:+ sid) else None
    | None => None
    end.
Proof.
  unfold call_request, outgoing, request_interceptor.
  destruct (sessionId w) as [sid|]; [destruct (truthy sid)|]; reflexivity.
Qed.

(** X1. No call is retried and the history of the wire is never
    rewritten: a sequence of calls appends to the wire at most one request
    per call. *)
Theorem run_calls_append_at_most_one_request_each :
  forall (cs : list ApiCall) (w : World),
    exists sent,
      wire (run_calls cs w) = wire w ++ sent /\
      (length sent <= length cs)%nat.
Proof.
  induction cs as [|c cs IH]; intros w.
  - exists []. rewrite app_nil_r. split; [reflexivity | cbn; lia].
  - change (run_calls (c :: cs) w) with (run_calls cs (snd (run_call c w))).
    destruct (IH (snd (run_call c w))) as (sent & Hw & Hlen).
    rewrite Hw, wire_run_call.
    destruct (is_endSession c && negb (holds_session w)).
    + exists sent. split; [reflexivity | cbn; lia].
    + exists (call_request c w :: sent). rewrite <- app_assoc.
      split; [reflexivity | cbn; lia].
Qed.

(** X2. While a non-empty session id is held, every call, to whichever
    endpoint (start-session, privacy-policy and health included), sends
    exactly one request, and that request carries
    [Authorization: Bearer <session id>]. *)
Theorem held_session_id_is_sent_to_every_endpoint :
  forall (c : ApiCall) (w : World) (sid : string),
    sessionId w = Some sid -> truthy sid = true ->
    wire (snd (run_call c w))
    = wire w ++ [{| method := call_method c; url := call_url c;
                    authorization := Some ("Bearer " +:+ sid);
                    body := call_body c |}].
Proof.
  intros c w sid Hw Hsid. rewrite wire_run_call.
  unfold holds_session. rewrite Hw, Hsid, andb_false_r.
  unfold call_request, outgoing, request_interceptor. rewrite Hw, Hsid.
  reflexivity.
Qed.

(** X3. A session whose id is the empty string: [isAuthenticated] says
    yes, yet the next call, whichever it is, sends no bearer header, and
    [endSession] does not notify the backend. *)
Theorem empty_session_id_authenticates_without_bearer :
  forall (creds : Credentials) (data : SessionResponse) (w : World),
    session_id data = EmptyString ->
    let w' := snd (startSession creds (Resolved data) w) in
    isAuthenticated w' = true /\
    (forall c, exists later,
        wire (snd (run_call c w')) = wire w' ++ later /\
        Forall no_bearer later) /\
    (forall reply, wire (snd (endSession reply w')) = wire w').
Proof.
  intros creds data w Hid w'.
  assert (Hs : sessionId w' = Some EmptyString)
    by (subst w'; rewrite startSession_resolved, Hid; reflexivity).
  split; [unfold isAuthenticated; rewrite Hs; reflexivity|]. split.
  - intros c. rewrite wire_run_call.
    destruct (is_endSession c && negb (holds_session w')).
    + exists []. rewrite app_nil_r. split; [reflexivity | constructor].
    + exists [call_request c w']. split; [reflexivity|].
      constructor; [|constructor].
      unfold no_bearer. rewrite call_request_bearer, Hs. reflexivity.
  - intros reply.
    pose proof (wire_run_call (EndSession reply) w') as H.
    rewrite run_call_endSession in H. rewrite H.
    unfold holds_session. rewrite Hs. reflexivity.
Qed.

(** ** Local state *)

Lemma clear_session_twice w : clear_session (clear_session w) = clear_session w.
Proof.
  unfold clear_session, removeItem, with_localStorage, with_sessionId.
  cbn [sessionId localStorage console wire]. f_equal.
  destruct (localStorage w) as [ls|]; [|reflexivity].
  cbn [fmap option_fmap option_map]. f_equal. apply (remove_both_twice ls).
Qed.

Lemma holds_session_clear_session w : holds_session (clear_session w) = false.
Proof. reflexivity. Qed.

Lemma new_ApiClient_cleared (w : World) :
  keys_cleared w -> sessionId (new_ApiClient (localStorage w)) = None.
Proof.
  intros Hk. unfold new_ApiClient. cbn [sessionId].
  destruct (localStorage w) as [ls|] eqn:Hls; [|reflexivity].
  cbn. destruct (Hk ls Hls) as [-> _]. reflexivity.
Qed.

Lemma getStoredCredentials_cleared (w : World) :
  keys_cleared w -> getStoredCredentials w = None.
Proof.
  intros Hk. unfold getStoredCredentials.
  destruct (localStorage w) as [ls|] eqn:Hls; [|reflexivity].
  cbn. apply (Hk ls Hls).
Qed.

(** X4. The operations that are not start-session or end-session have no
    local side effect unless the backend answers 401: whether they return
    or throw, the in-memory session id, the local store and the console
    are as before. *)
Theorem other_operations_have_no_local_effect :
  forall (c : ApiCall) (w : World),
    is_session_call c = false -> logs_out c = false ->
    sessionId (snd (run_call c w)) = sessionId w /\
    localStorage (snd (run_call c w)) = localStorage w /\
    console (snd (run_call c w)) = console w.
Proof.
  intros c w Hc Hout.
  assert (Hend : is_endSession c = false) by (destruct c; done).
  assert (Hs : starts_session c = false) by (destruct c; done).
  unfold logs_out in Hout. rewrite Hend in Hout. cbn [orb] in Hout.
  destruct (call_error c) as [e|] eqn:He.
  - rewrite (run_call_rejected c e w He Hend). cbn [snd].
    unfold after_rejection. rewrite Hout. repeat split.
  - rewrite (run_call_resolved c w He Hend Hs). repeat split.
Qed.

(** X5. Logging out twice is logging out once: a second [endSession]
    sends nothing and leaves the world exactly as the first one left it. *)
Theorem endSession_twice :
  forall (first second : AxiosReply unit) (w : World),
    endSession second (snd (endSession first w))
    = (Return tt, snd (endSession first w)).
Proof.
  intros first second w. rewrite (endSession_eq second), (endSession_eq first).
  cbn [snd]. rewrite holds_session_clear_session, clear_session_twice.
  reflexivity.
Qed.

(** X6. The client owns two keys of the local store and no other: along
    every sequence of calls the store stays there and every key other than
    [session_id] and [encrypted_credentials] keeps its value. *)
Theorem other_keys_are_never_touched :
  forall (cs : list ApiCall) (w : World) (ls : gmap string string) (k : string),
    localStorage w = Some ls ->
    k <> SESSION_ID -> k <> ENCRYPTED_CREDENTIALS ->
    exists ls',
      localStorage (run_calls cs w) = Some ls' /\ ls' !! k = ls !! k.
Proof.
  induction cs as [|c cs IH]; intros w ls k Hls Hk1 Hk2.
  - exists ls. split; [exact Hls | reflexivity].
  - change (run_calls (c :: cs) w) with (run_calls cs (snd (run_call c w))).
    assert (Hstep : exists ls1,
               localStorage (snd (run_call c w)) = Some ls1 /\
               ls1 !! k = ls !! k).
    { pose proof (store_effect_run_call c w) as Heff. rewrite Hls in Heff.
      inversion Heff as [Heq | sid enc Heq | Heq].
      - exists ls. split; reflexivity.
      - exists (write_both sid enc ls). split; [reflexivity|].
        unfold write_both. rewrite !lookup_insert_ne by congruence.
        reflexivity.
      - exists (remove_both ls). split; [reflexivity|].
        unfold remove_both. rewrite !lookup_delete_ne by congruence.
        reflexivity. }
    destruct Hstep as (ls1 & Hls1 & Hk).
    destruct (IH _ ls1 k Hls1 Hk1 Hk2) as (ls' & Hls' & Hk').
    exists ls'. split; [exact Hls' | congruence].
Qed.

(** X7. A session survives a page reload: after a successful
    [startSession] in a browser that returned a non-empty session id, a
    client constructed from the local store holds that session id again,
    and [getStoredCredentials] and [getSessionId] return what the backend
    sent. *)
Theorem session_survives_reload :
  forall (creds : Credentials) (data : SessionResponse) (w : World)
         (ls : gmap string string),
    localStorage w = Some ls -> truthy (session_id data) = true ->
    let w' := snd (startSession creds (Resolved data) w) in
    getSessionId w' = Some (session_id data) /\
    getStoredCredentials w' = Some (encrypted_credentials data) /\
    sessionId (new_ApiClient (localStorage w')) = Some (session_id data) /\
    getStoredCredentials (new_ApiClient (localStorage w'))
    = Some (encrypted_credentials data).
Proof.
  intros creds data w ls Hls Hid w'. subst w'.
  rewrite startSession_resolved. cbn [snd].
  unfold getSessionId, getStoredCredentials, new_ApiClient, setItem,
    with_localStorage, with_sessionId, with_wire.
  cbn [sessionId localStorage]. rewrite Hls.
  cbn [fmap option_fmap option_map mbind option_bind].
  rewrite lookup_insert_eq.
  rewrite lookup_insert_ne by discriminate. rewrite lookup_insert_eq, Hid.
  repeat split.
Qed.

(** X8. A logout survives a page reload: after [endSession], and after
    any call the backend answered with 401, [getSessionId] and
    [getStoredCredentials] return null, and a client constructed from the
    local store holds no session. *)
Theorem logout_survives_reload :
  forall (c : ApiCall) (w : World),
    logs_out c = true ->
    let w' := snd (run_call c w) in
    getSessionId w' = None /\
    getStoredCredentials w' = None /\
    sessionId (new_ApiClient (localStorage w')) = None.
Proof.
  intros c w Hout w'.
  assert (Hw' : exists w0, w' = clear_session w0).
  { subst w'. unfold logs_out in Hout. destruct (is_endSession c) eqn:Hend.
    - destruct c as [| reply | | | | | |]; try discriminate.
      rewrite run_call_endSession, endSession_eq. eexists. reflexivity.
    - cbn [orb] in Hout. destruct (call_error c) as [e|] eqn:He; [|discriminate].
      rewrite (run_call_rejected c e w He Hend). cbn [snd].
      unfold after_rejection. rewrite Hout. eexists. reflexivity. }
  destruct Hw' as [w0 ->].
  pose proof (keys_cleared_clear_session w0) as Hk.
  split; [reflexivity|]. split.
  - apply getStoredCredentials_cleared, Hk.
  - apply new_ApiClient_cleared, Hk.
Qed.

(** * Properties of the status labels and colours *)

Ltac case_status s :=
  destruct (String.eqb_spec s "queued") as [->|?];
  [|destruct (String.eqb_spec s "running") as [->|?];
    [|destruct (String.eqb_spec s "completed") as [->|?];
      [|destruct (String.eqb_spec s "failed") as [->|?];
        [|destruct (String.eqb_spec s "cancelled") as [->|?]]]]].

Lemma formatJobStatus_unknown s :
  s <> "queued"%string -> s <> "running"%string -> s <> "completed"%string ->
  s <> "failed"%string -> s <> "cancelled"%string ->
  formatJobStatus s = s.
Proof.
  intros H1 H2 H3 H4 H5. unfold formatJobStatus.
  apply String.eqb_neq in H1, H2, H3, H4, H5.
  rewrite H1, H2, H3, H4, H5. reflexivity.
Qed.

(** X9. [formatJobStatus] is idempotent on every string (a label is
    shown as it is), gives the five statuses of the [status] union five
    different labels, and leaves every other string unchanged. *)
Theorem formatJobStatus_labels :
  (forall s : string, formatJobStatus (formatJobStatus s) = formatJobStatus s) /\
  (forall a b : JobState,
      formatJobStatus (status_name a) = formatJobStatus (status_name b) ->
      a = b) /\
  (forall s : string,
      (forall st, s <> status_name st) -> formatJobStatus s = s).
Proof.
  split; [|split].
  - intros s. case_status s; try reflexivity.
    rewrite (formatJobStatus_unknown s) by assumption.
    apply formatJobStatus_unknown; assumption.
  - intros [] []; cbn; intros H; try reflexivity; discriminate H.
  - intros s Hs.
    apply formatJobStatus_unknown;
      [apply (Hs queued) | apply (Hs running) | apply (Hs completed)
      | apply (Hs failed) | apply (Hs cancelled)].
Qed.

(** X10. [getStatusColor] tells the five statuses of the [status] union
    apart, and gives a string that is none of them the colour of
    [cancelled]. *)
Theorem getStatusColor_distinguishes_statuses :
  (forall a b : JobState,
      getStatusColor (status_name a) = getStatusColor (status_name b) ->
      a = b) /\
  (forall s : string,
      (forall st, s <> status_name st) ->
      getStatusColor s = getStatusColor (status_name cancelled)).
Proof.
  split.
  - intros [] []; cbn; intros H; try reflexivity; discriminate H.
  - intros s Hs. unfold getStatusColor at 1.
    pose proof (Hs queued) as H1. pose proof (Hs running) as H2.
    pose proof (Hs completed) as H3. pose proof (Hs failed) as H4.
    cbn in H1, H2, H3, H4.
    apply String.eqb_neq in H1, H2, H3, H4. rewrite H1, H2, H3, H4.
    destruct (s =? "cancelled")%string; reflexivity.
Qed.

(** * Further properties of the dashboard *)

Lemma or_else_truthy x fallback :
  truthy fallback = true -> truthy (or_else x fallback) = true.
Proof.
  intros Hf. unfold or_else. destruct x as [s|]; [|exact Hf].
  destruct (truthy s) eqn:Hs; [exact Hs | exact Hf].
Qed.

Lemma or_else_idem x fallback other :
  truthy fallback = true ->
  or_else (Some (or_else x fallback)) other = or_else x fallback.
Proof.
  intros Hf. unfold or_else at 1. rewrite (or_else_truthy x fallback Hf).
  reflexivity.
Qed.

Lemma three_counts_le (js : list JobStatus) :
  (length (filter (fun job => status job = completed) js)
   + length (filter (fun job => status job = running) js)
   + length (filter (fun job => status job = failed) js)
   <= length js)%nat.
Proof.
  induction js as [|j js IH]; [cbn; lia|].
  rewrite !filter_cons. cbn [length].
  destruct (status j); repeat case_decide; try discriminate; cbn [length]; lia.
Qed.

Section FurtherDashboardProperties.

Variable getTime : string -> option Z.

Lemma poll_snoc replies reply s :
  poll getTime (replies ++ [reply]) s
  = loadJobs getTime reply (poll getTime replies s).
Proof. unfold poll. rewrite fold_left_app. reflexivity. Qed.

Lemma last_fetched_snoc replies reply :
  last_fetched (replies ++ [reply])
  = match reply with
    | Resolved js => Some js
    | Rejected _ => last_fetched replies
    end.
Proof. unfold last_fetched. rewrite fold_left_app. reflexivity. Qed.

Lemma loadJobs_eq reply w d :
  loadJobs getTime reply (w, d)
  = match reply with
    | Resolved js =>
        (with_wire (outgoing w GET "/api/jobs" NoBody) w,
         loadJobs_finally (setJobs (sort_jobs getTime js) d))
    | Rejected e =>
        (after_rejection e (with_wire (outgoing w GET "/api/jobs" NoBody) w),
         loadJobs_finally
           (if shows_toast reply then toast_error "Failed to load jobs" d else d))
    end.
Proof.
  destruct reply as [js|e]; [reflexivity|].
  rewrite loadJobs_rejected. unfold shows_toast, jobs_error_message.
  destruct (includes _ _); reflexivity.
Qed.

Lemma jobs_after_poll replies s :
  jobs (snd (poll getTime replies s))
  = match last_fetched replies with
    | Some fetched => sort_jobs getTime fetched
    | None => jobs (snd s)
    end.
Proof.
  induction replies as [|reply replies IH] using rev_ind.
  - reflexivity.
  - rewrite poll_snoc, last_fetched_snoc.
    destruct (poll getTime replies s) as [w d]. cbn [snd] in IH.
    rewrite loadJobs_eq. destruct reply as [js|e]; cbn [snd].
    + reflexivity.
    + rewrite <- IH. destruct (shows_toast _); reflexivity.
Qed.

(** X11. The dashboard shows the last good answer. After any sequence
    of polls: if no fetch succeeded the list is the one shown before; else
    it is a reordering of the most recent successfully fetched list, and
    when all jobs of that list carry a creation time it is most recently
    created first, the jobs created at the same time in the order they
    were fetched in. A failed fetch changes nothing. *)
Theorem poll_shows_last_successful_fetch :
  forall (replies : list (AxiosReply (list JobStatus))) (s : World * Dashboard),
    let shown := jobs (snd (poll getTime replies s)) in
    match last_fetched replies with
    | None => shown = jobs (snd s)
    | Some fetched =>
        shown ≡ₚ fetched /\
        (Forall (dated getTime) fetched ->
         newest_first getTime shown /\
         forall t : Z,
           filter (fun j => created getTime j = t) shown
           = filter (fun j => created getTime j = t) fetched)
    end.
Proof.
  intros replies s shown. subst shown. rewrite jobs_after_poll.
  destruct (last_fetched replies) as [fetched|]; [|reflexivity].
  split; [apply sort_jobs_Permutation|].
  intros Hd. split; [apply sort_jobs_newest_first, Hd|].
  intros t. apply sort_jobs_stable, Hd.
Qed.

(** X12. Failures do not stop the poller: every tick, whatever the
    answers to the ticks before, sends exactly one [GET /api/jobs] with no
    body, and after any tick neither spinner is left on. *)
Theorem poll_sends_one_request_per_tick :
  forall (replies : list (AxiosReply (list JobStatus))) (s : World * Dashboard),
    (exists sent,
        wire (fst (poll getTime replies s)) = wire (fst s) ++ sent /\
        length sent = length replies /\
        Forall (fun r => method r = GET /\ url r = "/api/jobs"%string /\
                         body r = NoBody) sent) /\
    (replies <> [] ->
     loading (snd (poll getTime replies s)) = false /\
     refreshing (snd (poll getTime replies s)) = false).
Proof.
  intros replies s. induction replies as [|reply replies IH] using rev_ind.
  - split; [|congruence]. exists []. rewrite app_nil_r.
    split; [reflexivity|]. split; [reflexivity | constructor].
  - destruct IH as [(sent & Hw & Hlen & Hall) _].
    rewrite poll_snoc. destruct (poll getTime replies s) as [w d].
    cbn [fst] in Hw. rewrite loadJobs_eq.
    assert (Hline : method (outgoing w GET "/api/jobs" NoBody) = GET /\
                    url (outgoing w GET "/api/jobs" NoBody) = "/api/jobs"%string /\
                    body (outgoing w GET "/api/jobs" NoBody) = NoBody).
    { unfold outgoing, request_interceptor.
      destruct (sessionId w) as [sid|]; [destruct (truthy sid)|]; repeat split. }
    split.
    + exists (sent ++ [outgoing w GET "/api/jobs" NoBody]).
      rewrite app_assoc, <- Hw, !length_app, Hlen. cbn [length].
      split; [|split; [reflexivity|]].
      * destruct reply as [js|e]; cbn [fst]; [reflexivity|].
        rewrite wire_after_rejection. reflexivity.
      * apply Forall_app. split; [exact Hall|]. constructor; [exact Hline|constructor].
    + intros _. destruct reply as [js|e]; cbn [snd]; split; reflexivity.
Qed.

(** X13. The error toasts of the poller: a sequence of polls adds one
    "Failed to load jobs" for each rejected fetch whose error message does
    not contain "401", and nothing else; a successful fetch adds none. *)
Theorem poll_toasts :
  forall (replies : list (AxiosReply (list JobStatus))) (s : World * Dashboard),
    toasts (snd (poll getTime replies s))
    = toasts (snd s)
      ++ replicate (length (filter (fun r => shows_toast r = true) replies))
           "Failed to load jobs"%string.
Proof.
  intros replies s. induction replies as [|reply replies IH] using rev_ind.
  - cbn. rewrite app_nil_r. reflexivity.
  - rewrite poll_snoc, filter_app, length_app, replicate_add, app_assoc, <- IH.
    destruct (poll getTime replies s) as [w d]. rewrite loadJobs_eq.
    destruct reply as [js|e]; cbn [snd].
    + cbn. rewrite app_nil_r. reflexivity.
    + rewrite filter_cons, filter_nil.
      destruct (shows_toast (Rejected e)) eqn:Hs.
      * rewrite decide_True by reflexivity. reflexivity.
      * rewrite decide_False by discriminate. cbn. rewrite app_nil_r.
        reflexivity.
Qed.

(** X14. Whether a failed fetch shows its toast depends on the text of
    the error only, never on the HTTP status: two rejections with the same
    [detail] leave the same toasts and the same list, whatever their
    statuses. *)
Theorem loadJobs_toast_ignores_status :
  forall (e1 e2 : AxiosError) (w : World) (d : Dashboard),
    error_detail e1 = error_detail e2 ->
    snd (loadJobs getTime (Rejected e1) (w, d))
    = snd (loadJobs getTime (Rejected e2) (w, d)).
Proof.
  intros e1 e2 w d H. rewrite !loadJobs_rejected. cbn [snd]. rewrite H.
  reflexivity.
Qed.

(** X15. A manual refresh is one tick of the poller: [handleRefresh]
    leaves the world and the dashboard exactly as [loadJobs] does on the
    same answer, with the refresh spinner off. *)
Theorem handleRefresh_is_one_poll :
  forall (reply : AxiosReply (list JobStatus)) (s : World * Dashboard),
    handleRefresh getTime reply s = loadJobs getTime reply s /\
    refreshing (snd (handleRefresh getTime reply s)) = false.
Proof.
  intros reply [w d]. unfold handleRefresh. rewrite !loadJobs_eq.
  destruct reply as [js|e]; [split; reflexivity|].
  destruct (shows_toast (Rejected e)); split; reflexivity.
Qed.

(** X16. The statistics cards: the completed, running and failed counts
    never add up to more than the total, and the four counts of the list
    shown after a successful fetch are those of the fetched list (sorting
    changes no count). *)
Theorem calculateOverallStats_counts :
  forall (fetched : list JobStatus) (s : World * Dashboard),
    let stats := calculateOverallStats fetched in
    let shown :=
      calculateOverallStats
        (jobs (snd (loadJobs getTime (Resolved fetched) s))) in
    (completedJobs stats + runningJobs stats + failedJobs stats
     <= totalJobs stats)%nat /\
    totalJobs shown = totalJobs stats /\
    completedJobs shown = completedJobs stats /\
    runningJobs shown = runningJobs stats /\
    failedJobs shown = failedJobs stats.
Proof.
  intros fetched [w d] stats shown. subst stats shown.
  rewrite loadJobs_resolved. cbn [snd jobs loadJobs_finally setJobs].
  assert (Hp : sort_jobs getTime fetched ≡ₚ fetched)
    by apply sort_jobs_Permutation.
  unfold calculateOverallStats.
  cbn [totalJobs completedJobs runningJobs failedJobs].
  split.
  - apply three_counts_le.
  - rewrite !Hp. repeat split.
Qed.

End FurtherDashboardProperties.

(** * Properties of the dashboard's handlers and of the two guards *)

(** X17. The End Session button cannot fail: whatever the backend
    answers, [handleEndSession] shows "Session ended successfully", pushes
    the route "/" and shows no error toast ("Failed to end session" is
    never shown); the client is then logged out, so the landing page does
    not send the user back to the dashboard. *)
Theorem handleEndSession_always_succeeds :
  forall (reply : AxiosReply unit) (w : World) (p : DashboardPage),
    let after := handleEndSession reply (w, p) in
    successes (snd after) = successes p ++ ["Session ended successfully"%string] /\
    pushes (snd after) = pushes p ++ ["/"%string] /\
    view (snd after) = view p /\
    isAuthenticated (fst after) = false /\
    landing_mount (fst after) = None.
Proof.
  intros reply w p after. subst after. unfold handleEndSession.
  rewrite endSession_eq. repeat split.
Qed.

Section HandlerProperties.

Variable getTime : string -> option Z.

(** X18. A cancellation that fails: [handleCancelJob] sends the one
    [DELETE /api/job/<id>], does not refresh the list, shows no success
    toast, and shows as error toast the backend's [detail] when it is
    there and not empty, and "Failed to cancel job" otherwise. *)
Theorem handleCancelJob_failure :
  forall (jobId : string) (e : AxiosError)
         (jobs_reply : AxiosReply (list JobStatus))
         (w : World) (p : DashboardPage),
    let after := handleCancelJob getTime jobId (Rejected e) jobs_reply (w, p) in
    wire (fst after)
    = wire w ++ [outgoing w DELETE ("/api/job/" +:+ jobId) NoBody] /\
    jobs (view (snd after)) = jobs (view p) /\
    successes (snd after) = successes p /\
    toasts (view (snd after))
    = toasts (view p) ++ [or_else (error_detail e) "Failed to cancel job"].
Proof.
  intros jobId e jobs_reply w p after. subst after.
  unfold handleCancelJob, cancelJob. rewrite rethrowing_method.
  cbn [fst snd message]. rewrite wire_after_rejection.
  rewrite or_else_idem by reflexivity. repeat split.
Qed.

(** X19. A cancellation that goes through: [handleCancelJob] shows
    "Job cancelled successfully" and then refreshes as one poll does: the
    wire gets the [DELETE] followed by one [GET /api/jobs], and the
    dashboard is what [loadJobs] makes of the answer to that fetch; a
    failed refresh leaves the success toast in place. *)
Theorem handleCancelJob_success :
  forall (jobId : string) (jobs_reply : AxiosReply (list JobStatus))
         (w : World) (p : DashboardPage),
    let after := handleCancelJob getTime jobId (Resolved tt) jobs_reply (w, p) in
    wire (fst after)
    = wire w ++ [outgoing w DELETE ("/api/job/" +:+ jobId) NoBody;
                 outgoing w GET "/api/jobs" NoBody] /\
    successes (snd after) = successes p ++ ["Job cancelled successfully"%string] /\
    view (snd after)
    = snd (loadJobs getTime jobs_reply
             (with_wire (outgoing w DELETE ("/api/job/" +:+ jobId) NoBody) w,
              view p)).
Proof.
  intros jobId jobs_reply w p after. subst after.
  unfold handleCancelJob, cancelJob. rewrite rethrowing_method.
  cbn [view toast_success]. rewrite loadJobs_eq.
  destruct jobs_reply as [js|e]; cbn [fst snd with_view view successes].
  - split; [|split; reflexivity].
    cbn [wire with_wire]. rewrite <- app_assoc. reflexivity.
  - split; [|split; reflexivity].
    rewrite wire_after_rejection. cbn [wire with_wire].
    rewrite <- app_assoc. reflexivity.
Qed.

(** X20. The two guards are complementary, so they cannot bounce a user
    back and forth. In a world where [isAuthenticated] holds, the landing
    page pushes "/dashboard" and the dashboard stays, does its first fetch
    and sets the interval; in any other world the landing page stays and
    the dashboard pushes "/", sends nothing and sets no interval. *)
Theorem guards_are_complementary :
  forall (reply : AxiosReply (list JobStatus)) (w : World) (p : DashboardPage),
    let after := dashboard_mount getTime reply (w, p) in
    if isAuthenticated w
    then landing_mount w = Some "/dashboard"%string /\
         pushes (snd after) = pushes p /\
         interval (snd after) = true /\
         wire (fst after) = wire w ++ [outgoing w GET "/api/jobs" NoBody]
    else landing_mount w = None /\
         after = (w, router_push "/" p).
Proof.
  intros reply w p after. subst after.
  unfold dashboard_mount, landing_mount.
  destruct (isAuthenticated w); cbn [negb]; [|split; reflexivity].
  rewrite loadJobs_eq.
  destruct reply as [js|e]; cbn [fst snd]; repeat split.
  rewrite wire_after_rejection. reflexivity.
Qed.

End HandlerProperties.

(** * Properties of the privacy-policy page *)

(** X21. [loadPrivacyPolicy] never fails and never leaves the spinner
    on: it sends one [GET /api/privacy-policy]; on success the page holds
    the policy text; on any failure it holds the fixed apology and logs
    the fixed error, so the backend's [detail] reaches neither the page
    nor the console. *)
Theorem loadPrivacyPolicy_outcomes :
  forall (reply : AxiosReply string) (w : World) (pg : PrivacyPage),
    let after := loadPrivacyPolicy reply (w, pg) in
    policy_loading (snd after) = false /\
    wire (fst after) = wire w ++ [outgoing w GET "/api/privacy-policy" NoBody] /\
    privacyPolicy (snd after)
    = match reply with
      | Resolved policy => policy
      | Rejected _ =>
          "Failed to load privacy policy. Please try again later."%string
      end /\
    policy_console (snd after)
    = match reply with
      | Resolved _ => policy_console pg
      | Rejected _ =>
          policy_console pg
          ++ [("Failed to load privacy policy:"%string,
               {| message := "Failed to load privacy policy" |})]
      end.
Proof.
  intros reply w pg after. subst after.
  unfold loadPrivacyPolicy, getPrivacyPolicy.
  rewrite (rethrowing_method _ _ _ _ (fun _ => "Failed to load privacy policy"%string)).
  destruct reply as [policy|e]; cbn [fst snd]; repeat split.
  rewrite wire_after_rejection. reflexivity.
Qed.

(** * Further properties of the landing form *)

Lemma filter_other_not_in (c : string) (cur : list string) :
  c ∉ cur -> filter (fun x => x ≠ c) cur = cur.
Proof.
  induction cur as [|y cur IH]; intros Hc; [reflexivity|].
  apply not_elem_of_cons in Hc as [Hne Hc].
  rewrite filter_cons, decide_True by congruence. rewrite (IH Hc). reflexivity.
Qed.

Lemma elem_of_toggleCategory (c : string) (cur : list string) (x : string) :
  x ∈ toggleCategory c cur <-> (x = c /\ c ∉ cur) \/ (x <> c /\ x ∈ cur).
Proof.
  unfold toggleCategory. case_bool_decide as Hc.
  - rewrite list_elem_of_filter. split.
    + intros [Hne Hx]. right. split; assumption.
    + intros [[_ Hn]|[Hne Hx]]; [contradiction | split; assumption].
  - rewrite elem_of_app, list_elem_of_singleton. split.
    + intros [Hx| ->]; [right | left]; [|split; [reflexivity | exact Hc]].
      split; [|exact Hx]. intros ->. contradiction.
    + intros [[-> _]|[_ Hx]]; [right; reflexivity | left; exact Hx].
Qed.

Lemma NoDup_toggleCategory (c : string) (cur : list string) :
  NoDup cur -> NoDup (toggleCategory c cur).
Proof.
  intros Hnd. unfold toggleCategory. case_bool_decide as Hc.
  - apply NoDup_filter, Hnd.
  - apply NoDup_app. split; [exact Hnd|]. split; [|apply NoDup_singleton].
    intros x Hx Hx'. apply list_elem_of_singleton in Hx'. subst x.
    contradiction.
Qed.

(** X22. A click on a checkbox flips that category and no other: after
    [toggleCategory c], [c] is selected exactly when it was not, every
    other category is selected exactly when it was, and a selection without
    duplicates stays without duplicates. *)
Theorem toggleCategory_flips_one :
  forall (c : string) (current : list string),
    (c ∈ toggleCategory c current <-> c ∉ current) /\
    (forall x, x <> c -> (x ∈ toggleCategory c current <-> x ∈ current)) /\
    (NoDup current -> NoDup (toggleCategory c current)).
Proof.
  intros c current. split; [|split].
  - rewrite elem_of_toggleCategory. split.
    + intros [[_ H]|[H _]]; [exact H | congruence].
    + intros H. left. split; [reflexivity | exact H].
  - intros x Hx. rewrite elem_of_toggleCategory. split.
    + intros [[H _]|[_ H]]; [congruence | exact H].
    + intros H. right. split; assumption.
  - apply NoDup_toggleCategory.
Qed.

(** X23. Two clicks on the same checkbox restore the selection: the
    same categories are selected as before, and when the category was not
    selected the list is the very same list, order included. *)
Theorem toggleCategory_twice :
  forall (c : string) (current : list string),
    (forall x, x ∈ toggleCategory c (toggleCategory c current) <-> x ∈ current) /\
    (c ∉ current -> toggleCategory c (toggleCategory c current) = current).
Proof.
  intros c current. split.
  - intros x. rewrite !elem_of_toggleCategory.
    destruct (decide (x = c)) as [->|Hne]; destruct (decide (c ∈ current));
      tauto.
  - intros Hc. unfold toggleCategory at 2.
    rewrite bool_decide_eq_false_2 by exact Hc.
    unfold toggleCategory. rewrite bool_decide_eq_true_2.
    + rewrite filter_app, (filter_other_not_in c current Hc).
      rewrite filter_cons, decide_False by (intros H; apply H; reflexivity).
      rewrite filter_nil. apply app_nil_r.
    + apply elem_of_app. right. apply list_elem_of_singleton. reflexivity.
Qed.

Lemma selection_invariant (clicks : list string) : forall init : list string,
  Forall is_option clicks ->
  NoDup init -> Forall is_option init ->
  NoDup (fold_left (fun current c => toggleCategory c current) clicks init) /\
  Forall is_option
    (fold_left (fun current c => toggleCategory c current) clicks init).
Proof.
  induction clicks as [|c clicks IH]; intros init Hclicks Hnd Hin.
  - split; assumption.
  - apply Forall_cons in Hclicks as [Hc Hclicks]. cbn [fold_left].
    apply IH; [exact Hclicks | apply NoDup_toggleCategory, Hnd |].
    apply Forall_forall. intros x Hx.
    apply elem_of_toggleCategory in Hx as [[-> _]|[_ Hx]]; [exact Hc|].
    rewrite Forall_forall in Hin. apply Hin, Hx.
Qed.

(** X24. Whatever checkboxes are clicked, in whatever order and however
    often, the selected categories are values of [categoryOptions], each
    at most once: at most six of them. *)
Theorem selected_categories_are_distinct_options :
  forall clicks : list string,
    Forall is_option clicks ->
    NoDup (selected_after clicks) /\
    Forall is_option (selected_after clicks) /\
    (length (selected_after clicks) <= 6)%nat.
Proof.
  intros clicks Hclicks.
  assert (Hnd0 : NoDup (categories defaultAutomationConfig)).
  { apply (bool_decide_unpack (NoDup (categories defaultAutomationConfig))).
    vm_compute. reflexivity. }
  assert (Hin0 : Forall is_option (categories defaultAutomationConfig)).
  { apply (bool_decide_unpack
             (Forall is_option (categories defaultAutomationConfig))).
    vm_compute. reflexivity. }
  destruct (selection_invariant clicks _ Hclicks Hnd0 Hin0) as [Hnd Hin].
  split; [exact Hnd|]. split; [exact Hin|].
  change 6%nat with (length (fst <$> categoryOptions)).
  apply submseteq_length, NoDup_submseteq; [exact Hnd|].
  rewrite Forall_forall in Hin. exact Hin.
Qed.

Lemma apply_edit_daily_pin_limit v e :
  f_daily_pin_limit (apply_edit v e) = f_daily_pin_limit v.
Proof. destruct e as [| | | |[] x]; reflexivity. Qed.

(** X25. The form has no input for the daily pin limit: whatever the
    user edits, the submitted config carries [daily_pin_limit] 50. *)
Theorem daily_pin_limit_is_always_default :
  forall es : list FormEdit,
    daily_pin_limit (submitted_config (form_after es)) = 50 # 1.
Proof.
  intros es. unfold form_after. cbn [daily_pin_limit submitted_config].
  change (50 # 1) with (f_daily_pin_limit useForm_defaultValues).
  generalize useForm_defaultValues.
  induction es as [|e es IH]; intros v; [reflexivity|].
  cbn [fold_left]. rewrite IH. apply apply_edit_daily_pin_limit.
Qed.

(** X26. When the session cannot be started, [onSubmit] stops there:
    the automation is never requested (the wire gets the start-session
    request only) and the one error toast is the backend's [detail] when
    there and not empty, "Failed to start session" otherwise. *)
Theorem onSubmit_session_failure :
  forall (data : FormValues) (e : AxiosError)
         (automation_reply : AxiosReply JobResponse) (w : World),
    let after := onSubmit data (Rejected e) automation_reply w in
    fst after = [or_else (error_detail e) "Failed to start session"] /\
    wire (snd after)
    = wire w ++ [outgoing w POST "/api/start-session"
                   (CredentialsBody (submitted_credentials data))].
Proof.
  intros data e automation_reply w after. subst after.
  unfold onSubmit, mbind, mret, Js_bind, Js_ret, bind.
  rewrite startSession_rejected. cbn [fst snd message].
  rewrite wire_after_rejection, or_else_idem by reflexivity.
  split; reflexivity.
Qed.

(** X27. The session outlives a failed start of the automation: when
    start-session succeeds and start-automation fails with anything but a
    401, [onSubmit] shows the error and the client stays logged in with the
    new session id, both keys stored, so the landing page now redirects to
    the dashboard. *)
Theorem onSubmit_automation_failure_keeps_session :
  forall (data : FormValues) (session : SessionResponse) (e : AxiosError)
         (w : World),
    error_status e <> Some 401 ->
    let after := onSubmit data (Resolved session) (Rejected e) w in
    fst after = [or_else (error_detail e) "Failed to start automation"] /\
    sessionId (snd after) = Some (session_id session) /\
    localStorage (snd after)
    = write_both (session_id session) (encrypted_credentials session)
      <$> localStorage w /\
    landing_mount (snd after) = Some "/dashboard"%string.
Proof.
  intros data session e w He after. subst after.
  unfold onSubmit, mbind, mret, Js_bind, Js_ret, bind.
  rewrite startSession_resolved. unfold startAutomation.
  rewrite rethrowing_method, (after_rejection_other _ _ He).
  cbn [fst snd message]. rewrite or_else_idem by reflexivity.
  split; [reflexivity|]. split; [reflexivity|]. split; [|reflexivity].
  cbn. destruct (localStorage w); reflexivity.
Qed.

(** X28. The two requests of [onSubmit] once the session has started:
    start-session leaves with whatever bearer the client held before, and
    start-automation leaves with the bearer of the session just created
    (none if its id is empty), never with an older one, and with the same
    credentials in its body. *)
Theorem onSubmit_requests :
  forall (data : FormValues) (session : SessionResponse)
         (automation_reply : AxiosReply JobResponse) (w : World),
    wire (snd (onSubmit data (Resolved session) automation_reply w))
    = wire w
      ++ [outgoing w POST "/api/start-session"
            (CredentialsBody (submitted_credentials data));
          {| method := POST; url := "/api/start-automation";
             authorization :=
               if truthy (session_id session)
               then Some ("Bearer " +:+ session_id session) else None;
             body := AutomationBody
                       {| credentials := submitted_credentials data;
                          config := submitted_config data |} |}].
Proof.
  intros data session automation_reply w.
  unfold onSubmit, mbind, mret, Js_bind, Js_ret, bind.
  rewrite startSession_resolved. unfold startAutomation.
  rewrite rethrowing_method.
  assert (Hreq : forall w0 : World,
             sessionId w0 = Some (session_id session) ->
             outgoing w0 POST "/api/start-automation"
               (AutomationBody {| credentials := submitted_credentials data;
                                  config := submitted_config data |})
             = {| method := POST; url := "/api/start-automation";
                  authorization :=
                    if truthy (session_id session)
                    then Some ("Bearer " +:+ session_id session) else None;
                  body := AutomationBody
                            {| credentials := submitted_credentials data;
                               config := submitted_config data |} |}).
  { intros w0 Hw0. unfold outgoing, request_interceptor. rewrite Hw0.
    destruct (truthy (session_id session)); reflexivity. }
  destruct automation_reply as [job|e]; cbn [fst snd];
    rewrite ?wire_after_rejection; cbn [wire with_wire];
    rewrite Hreq by reflexivity;
    unfold ret, setItem, with_localStorage, with_sessionId, with_wire;
    cbn [snd wire]; rewrite <- app_assoc; reflexivity.
Qed.

(** * The further theorems at concrete inputs *)

Lemma held_session_id_is_sent_to_every_endpoint_witness :
  sessionId logged_in = Some "s-42"%string /\
  truthy "s-42" = true /\
  wire (snd (run_call (GetPrivacyPolicy (Resolved "policy"%string)) logged_in))
  = wire logged_in
    ++ [{| method := GET; url := "/api/privacy-policy";
           authorization := Some "Bearer s-42"%string; body := NoBody |}].
Proof.
  split; [reflexivity|]. split; [reflexivity|].
  exact (held_session_id_is_sent_to_every_endpoint
           (GetPrivacyPolicy (Resolved "policy"%string)) logged_in "s-42"
           eq_refl eq_refl).
Defined.

Lemma empty_session_id_authenticates_without_bearer_witness :
  session_id blank_session = EmptyString /\
  isAuthenticated
    (snd (startSession sample_credentials (Resolved blank_session) fresh_tab))
  = true.
Proof.
  split; [reflexivity|].
  exact (proj1 (empty_session_id_authenticates_without_bearer
                  sample_credentials blank_session fresh_tab eq_refl)).
Defined.

Lemma other_operations_have_no_local_effect_witness :
  is_session_call (GetJobStatus "job-7" (Rejected job_not_found)) = false /\
  logs_out (GetJobStatus "job-7" (Rejected job_not_found)) = false /\
  sessionId (snd (run_call (GetJobStatus "job-7" (Rejected job_not_found))
                    logged_in))
  = sessionId logged_in.
Proof.
  split; [reflexivity|]. split; [reflexivity|].
  exact (proj1 (other_operations_have_no_local_effect
                  (GetJobStatus "job-7" (Rejected job_not_found)) logged_in
                  eq_refl eq_refl)).
Defined.

Lemma other_keys_are_never_touched_witness :
  localStorage themed_tab = Some {["theme"%string := "dark"%string]} /\
  "theme"%string <> SESSION_ID /\
  "theme"%string <> ENCRYPTED_CREDENTIALS /\
  exists ls',
    localStorage
      (run_calls [StartSession sample_credentials (Resolved sample_session);
                  GetUserJobs (Rejected unauthorized)] themed_tab)
    = Some ls' /\
    ls' !! "theme"%string
    = ({["theme"%string := "dark"%string]} : gmap string string) !! "theme"%string.
Proof.
  assert (H1 : "theme"%string <> SESSION_ID) by discriminate.
  assert (H2 : "theme"%string <> ENCRYPTED_CREDENTIALS) by discriminate.
  split; [reflexivity|]. split; [exact H1|]. split; [exact H2|].
  exact (other_keys_are_never_touched
           [StartSession sample_credentials (Resolved sample_session);
            GetUserJobs (Rejected unauthorized)]
           themed_tab _ "theme"%string eq_refl H1 H2).
Defined.

Lemma session_survives_reload_witness :
  localStorage fresh_tab = Some ∅ /\
  truthy (session_id sample_session) = true /\
  sessionId (new_ApiClient (localStorage logged_in)) = Some "s-42"%string.
Proof.
  split; [reflexivity|]. split; [reflexivity|].
  exact (proj1 (proj2 (proj2 (session_survives_reload sample_credentials
                                sample_session fresh_tab ∅ eq_refl eq_refl)))).
Defined.

Lemma logout_survives_reload_witness :
  logs_out (GetUserJobs (Rejected unauthorized)) = true /\
  sessionId
    (new_ApiClient
       (localStorage (snd (run_call (GetUserJobs (Rejected unauthorized))
                             logged_in))))
  = None.
Proof.
  split; [reflexivity|].
  exact (proj2 (proj2 (logout_survives_reload
                         (GetUserJobs (Rejected unauthorized)) logged_in
                         eq_refl))).
Defined.

Lemma formatJobStatus_labels_witness :
  (forall st, "paused"%string <> status_name st) /\
  formatJobStatus "paused" = "paused"%string.
Proof.
  assert (H : forall st, "paused"%string <> status_name st)
    by (intros []; discriminate).
  split; [exact H|].
  exact (proj2 (proj2 formatJobStatus_labels) "paused"%string H).
Defined.

Lemma getStatusColor_distinguishes_statuses_witness :
  (forall st, "paused"%string <> status_name st) /\
  getStatusColor "paused" = "text-gray-600 bg-gray-100"%string.
Proof.
  assert (H : forall st, "paused"%string <> status_name st)
    by (intros []; discriminate).
  split; [exact H|].
  exact (proj2 getStatusColor_distinguishes_statuses "paused"%string H).
Defined.

Lemma poll_shows_last_successful_fetch_witness :
  Forall (dated length_clock) tied_jobs /\
  filter (fun j => created length_clock j = 7)
    (jobs (snd (poll length_clock [Resolved tied_jobs; Rejected offline]
                  (logged_in, loading_dashboard))))
  = [sample_job "job-a" "2024-01"; sample_job "job-c" "2024-01"].
Proof.
  assert (Hd : Forall (dated length_clock) tied_jobs)
    by (repeat constructor; eexists; reflexivity).
  split; [exact Hd|].
  exact (proj2 (proj2 (poll_shows_last_successful_fetch length_clock
                         [Resolved tied_jobs; Rejected offline]
                         (logged_in, loading_dashboard)) Hd) 7).
Defined.

Lemma poll_sends_one_request_per_tick_witness :
  [Rejected offline; Resolved [sample_job "only" "2024-01"]] <> [] /\
  loading
    (snd (poll length_clock
            [Rejected offline; Resolved [sample_job "only" "2024-01"]]
            (logged_in,
             {| jobs := []; loading := true; refreshing := true;
                toasts := [] |})))
  = false.
Proof.
  assert (H : [Rejected offline; Resolved [sample_job "only" "2024-01"]] <> [])
    by discriminate.
  split; [exact H|].
  exact (proj1 (proj2 (poll_sends_one_request_per_tick length_clock _ _) H)).
Defined.

Lemma loadJobs_toast_ignores_status_witness :
  error_detail unauthorized = error_detail expired_500 /\
  snd (loadJobs length_clock (Rejected unauthorized)
         (logged_in,
          {| jobs := []; loading := true; refreshing := false; toasts := [] |}))
  = snd (loadJobs length_clock (Rejected expired_500)
           (logged_in,
            {| jobs := []; loading := true; refreshing := false; toasts := [] |})).
Proof.
  split; [reflexivity|].
  exact (loadJobs_toast_ignores_status length_clock unauthorized expired_500
           logged_in _ eq_refl).
Defined.

Lemma toggleCategory_flips_one_witness :
  ("books" ∉ categories defaultAutomationConfig) /\
  ("books" ∈ toggleCategory "books" (categories defaultAutomationConfig)).
Proof.
  assert (H : "books" ∉ categories defaultAutomationConfig).
  { apply (bool_decide_unpack
             ("books" ∉ categories defaultAutomationConfig)).
    vm_compute. reflexivity. }
  split; [exact H|].
  exact (proj2 (proj1 (toggleCategory_flips_one "books"
                         (categories defaultAutomationConfig))) H).
Defined.

Lemma toggleCategory_twice_witness :
  ("sports" ∉ categories defaultAutomationConfig) /\
  toggleCategory "sports"
    (toggleCategory "sports" (categories defaultAutomationConfig))
  = categories defaultAutomationConfig.
Proof.
  assert (H : "sports" ∉ categories defaultAutomationConfig).
  { apply (bool_decide_unpack
             ("sports" ∉ categories defaultAutomationConfig)).
    vm_compute. reflexivity. }
  split; [exact H|].
  exact (proj2 (toggleCategory_twice "sports"
                  (categories defaultAutomationConfig)) H).
Defined.

Lemma selected_categories_are_distinct_options_witness :
  Forall is_option ["books"; "home"; "books"; "sports"]%string /\
  NoDup (selected_after ["books"; "home"; "books"; "sports"]%string).
Proof.
  assert (H : Forall is_option ["books"; "home"; "books"; "sports"]%string).
  { apply (bool_decide_unpack
             (Forall is_option ["books"; "home"; "books"; "sports"]%string)).
    vm_compute. reflexivity. }
  split; [exact H|].
  exact (proj1 (selected_categories_are_distinct_options _ H)).
Defined.

Lemma onSubmit_automation_failure_keeps_session_witness :
  error_status job_not_found <> Some 401 /\
  sessionId
    (snd (onSubmit (form_after [TypePinterestToken "pina_token"])
            (Resolved sample_session) (Rejected job_not_found) fresh_tab))
  = Some "s-42"%string.
Proof.
  assert (H : error_status job_not_found <> Some 401) by discriminate.
  split; [exact H|].
  exact (proj1 (proj2 (onSubmit_automation_failure_keeps_session
                         (form_after [TypePinterestToken "pina_token"])
                         sample_session job_not_found fresh_tab H))).
Defined.
